(** * Cotton Cloud backend: ephemeral image cache and AI proxy

    A shallow embedding of
      - [internal/services]: the Gemini client ([GeminiService]) and the
        in-memory [ImageCache];
      - [internal/api/handlers/ai.go]: the HTTP handlers that compose them;
      - the authentication middleware in front of the AI routes, with the
        token validation of [internal/services/auth.go], and the metrics
        accessors of the avatar model;
    followed by the properties of the cache life cycle, of the
    generate / refine / clear protocol and of the decoding helpers, and
    by further properties of the encodings, the cache, the services, the
    handlers and the middleware.

    Go strings are byte sequences and are modelled by [string]; [[]byte] is
    [list byte]; [time.Time] and [time.Duration] are counts of nanoseconds in
    [Z]; the [map[string]*CacheEntry] is a [gmap string CacheEntry]. *)

From Stdlib Require Import ZArith NArith Ascii String List Lia.
From Stdlib Require Import Strings.Byte.
From stdpp Require Import gmap strings list fin_maps.

Local Open Scope Z_scope.

(* ===================================================================== *)
(** ** Go values: errors, multi-value returns, panics                     *)
(* ===================================================================== *)

(** A Go [error] value.  [Wrapf p e] is [fmt.Errorf(p + ": %w", e)]. *)
Inductive error : Type :=
| CorruptInputError                 (* encoding/base64 (offset elided) *)
| UnmarshalError                    (* encoding/json *)
| ProviderError (msg : string)      (* transport error or deadline exceeded *)
| Errorf (msg : string)
| Wrapf (msg : string) (cause : error).

(** [err.Error()] *)
Fixpoint Error (e : error) : string :=
  match e with
  | CorruptInputError => "illegal base64 data"
  | UnmarshalError => "invalid JSON input"
  | ProviderError msg => msg
  | Errorf msg => msg
  | Wrapf msg cause => msg +:+ ": " +:+ Error cause
  end.

(** A [(T, error)] pair as the callers read it: either the value or a
    non-nil error. *)
Inductive res (T : Type) : Type :=
| Ok (v : T)
| Err (e : error).
Arguments Ok {T} v.
Arguments Err {T} e.

(** A computation either completes or panics (run-time error). *)
Inductive outcome (A : Type) : Type :=
| Done (a : A)
| Panicked (msg : string).
Arguments Done {A} a.
Arguments Panicked {A} msg.

Definition is_Err {T} (r : res T) : bool :=
  match r with Err _ => true | Ok _ => false end.

(* ===================================================================== *)
(** ** The parts of the Go standard library the services call             *)
(* ===================================================================== *)

Module GoStrings.

(** [s] without the prefix [p], when it has it. *)
Fixpoint stripPrefix (p s : string) : option string :=
  match p, s with
  | EmptyString, _ => Some s
  | String a p', String b s' =>
      if Ascii.eqb a b then stripPrefix p' s' else None
  | String _ _, EmptyString => None
  end.

Definition HasPrefix (s p : string) : bool :=
  match stripPrefix p s with Some _ => true | None => false end.

Definition TrimPrefix (s p : string) : string :=
  match stripPrefix p s with Some r => r | None => s end.

Definition rev (s : string) : string :=
  string_of_list_ascii (List.rev (list_ascii_of_string s)).

Definition HasSuffix (s p : string) : bool := HasPrefix (rev s) (rev p).

Definition TrimSuffix (s p : string) : string :=
  match stripPrefix (rev p) (rev s) with
  | Some r => rev r
  | None => s
  end.

(** [strings.Cut(s, sep)]: split around the first instance of [sep]. *)
Fixpoint Cut (s sep : string) : string * string * bool :=
  match stripPrefix sep s with
  | Some after => (EmptyString, after, true)
  | None =>
      match s with
      | EmptyString => (EmptyString, EmptyString, false)
      | String c s' =>
          let '(before, after, found) := Cut s' sep in
          (String c before, after, found)
      end
  end.

(** The UTF-8 encodings of the runes for which [unicode.IsSpace] holds,
    as byte values. *)
Definition spaces : list (list N) :=
  [ [9]; [10]; [11]; [12]; [13]; [32];
    [194; 133]; [194; 160];
    [225; 154; 128];
    [226; 128; 128]; [226; 128; 129]; [226; 128; 130]; [226; 128; 131];
    [226; 128; 132]; [226; 128; 133]; [226; 128; 134]; [226; 128; 135];
    [226; 128; 136]; [226; 128; 137]; [226; 128; 138];
    [226; 128; 168]; [226; 128; 169]; [226; 128; 175];
    [226; 129; 159];
    [227; 128; 128] ]%N.

Definition bytes_string (l : list N) : string :=
  string_of_list_ascii (List.map ascii_of_N l).

(** Drop one white-space rune at the front, if there is one. *)
Definition dropSpace (pats : list string) (s : string) : option string :=
  List.fold_right
    (fun p acc => match stripPrefix p s with Some r => Some r | None => acc end)
    None pats.

Fixpoint trimLeft (fuel : nat) (pats : list string) (s : string) : string :=
  match fuel with
  | O => s
  | S fuel' =>
      match dropSpace pats s with
      | Some r => trimLeft fuel' pats r
      | None => s
      end
  end.

Definition TrimSpace (s : string) : string :=
  let fwd := List.map bytes_string spaces in
  let bwd := List.map (fun p => rev (bytes_string p)) spaces in
  let s1 := trimLeft (String.length s) fwd s in
  rev (trimLeft (String.length s1) bwd (rev s1)).

End GoStrings.

Module Base64.
Local Open Scope N_scope.

(** Index of a character in the standard alphabet. *)
Definition decodeMap (c : ascii) : option N :=
  let n := N_of_ascii c in
  if (65 <=? n) && (n <=? 90) then Some (n - 65)
  else if (97 <=? n) && (n <=? 122) then Some (n - 71)
  else if (48 <=? n) && (n <=? 57) then Some (n + 4)
  else if n =? 43 then Some 62
  else if n =? 47 then Some 63
  else None.

Definition byte_of_N (n : N) : byte :=
  match Byte.of_N (n mod 256) with Some b => b | None => x00 end.

Definition isPad (c : ascii) : bool := Ascii.eqb c "="%char.

Definition isNewline (c : ascii) : bool :=
  Ascii.eqb c "010"%char || Ascii.eqb c "013"%char.

(** Four characters at a time; padding only closes the input. *)
Fixpoint decodeQuanta (l : list ascii) : option (list byte) :=
  match l with
  | [] => Some []
  | a :: b :: c :: d :: rest =>
      match decodeMap a, decodeMap b with
      | Some va, Some vb =>
          match decodeMap c, decodeMap d with
          | Some vc, Some vd =>
              let n := (va * 262144 + vb * 4096 + vc * 64 + vd) in
              match decodeQuanta rest with
              | Some tl =>
                  Some (byte_of_N (n / 65536) :: byte_of_N (n / 256)
                          :: byte_of_N n :: tl)
              | None => None
              end
          | Some vc, None =>
              match rest with
              | [] =>
                  if isPad d
                  then Some [byte_of_N (va * 4 + vb / 16);
                             byte_of_N (vb * 16 + vc / 4)]
                  else None
              | _ :: _ => None
              end
          | None, _ =>
              match rest with
              | [] =>
                  if isPad c && isPad d
                  then Some [byte_of_N (va * 4 + vb / 16)]
                  else None
              | _ :: _ => None
              end
          end
      | _, _ => None
      end
  | _ => None
  end.

(** [base64.StdEncoding.DecodeString]: carriage returns and line feeds
    are skipped, everything else must be a padded standard encoding. *)
Definition DecodeString (s : string) : res (list byte) :=
  let chars := List.filter (fun c => negb (isNewline c)) (list_ascii_of_string s) in
  match decodeQuanta chars with
  | Some bs => Ok bs
  | None => Err CorruptInputError
  end.

Definition encodeStd (n : N) : ascii :=
  let n := (n mod 64) in
  if (n <? 26) then ascii_of_N (n + 65)
  else if (n <? 52) then ascii_of_N (n + 71)
  else if (n <? 62) then ascii_of_N (n - 4)
  else if (n =? 62) then "+"%char
  else "/"%char.

Fixpoint encodeBytes (l : list byte) : list ascii :=
  match l with
  | [] => []
  | [x] =>
      let n := Byte.to_N x in
      [encodeStd (n / 4); encodeStd (n * 16); "="%char; "="%char]
  | [x; y] =>
      let n := (Byte.to_N x * 256 + Byte.to_N y) in
      [encodeStd (n / 1024); encodeStd (n / 16); encodeStd (n * 4); "="%char]
  | x :: y :: z :: rest =>
      let n := (Byte.to_N x * 65536 + Byte.to_N y * 256 + Byte.to_N z) in
      encodeStd (n / 262144) :: encodeStd (n / 4096)
        :: encodeStd (n / 64) :: encodeStd n :: encodeBytes rest
  end.

(** [base64.StdEncoding.EncodeToString] *)
Definition EncodeToString (l : list byte) : string :=
  string_of_list_ascii (encodeBytes l).

End Base64.

Module Hex.
Local Open Scope N_scope.

Definition digit (n : N) : ascii :=
  if (n <? 10) then ascii_of_N (n + 48) else ascii_of_N (n + 87).

(** [hex.EncodeToString] *)
Fixpoint EncodeToString (l : list byte) : string :=
  match l with
  | [] => EmptyString
  | b :: rest =>
      let n := Byte.to_N b in
      String (digit (n / 16)) (String (digit (n mod 16)) (EncodeToString rest))
  end.

End Hex.

(* ===================================================================== *)
(** ** The generative-AI client library, as the services use it           *)
(* ===================================================================== *)

Module Genai.

(** A part of a response: [genai.Text], [genai.Blob], or any other kind
    (function calls and the like). *)
Inductive Part : Type :=
| Text (text : string)
| Blob (MIMEType : string) (Data : list byte)
| OtherPart.

Record Content : Type := { Parts : list Part }.
Record Candidate : Type := { CandidateContent : Content }.
Record GenerateContentResponse : Type := { Candidates : list Candidate }.

End Genai.

Module Services.
Import GoStrings Genai.

(* ------------------------------------------------------------------- *)
(** *** Data                                                             *)
(* ------------------------------------------------------------------- *)

Record ClothingAnalysis : Type := {
  Category : string;
  Color : string;
  Material : string;
  Description : string;
  Tags : list string;
  Style : list string;
  Season : list string
}.

Record AvatarMetrics : Type := {
  Gender : string;
  Height : string;
  Weight : string;
  Bust : string;
  Waist : string;
  Hips : string;
  Thigh : string;
  Calf : string;
  Features : string
}.

(** The instruction templates are fixed texts; a prompt is kept as the
    template's name with the values interpolated into it. *)
Inductive Prompt : Type :=
| AnalyzePrompt
| RefineAnalysisPrompt (userFeedback : string)
| CutoutPrompt
| RefineCutoutPrompt (userFeedback : string)
| AvatarPrompt (metrics : AvatarMetrics)
| CollagePrompt
| TryOnPrompt.

(** An argument of [GenerateContent]. *)
Inductive Input : Type :=
| InImage (MIMEType : string) (Data : list byte)
| InText (prompt : Prompt).

(** [genai.ImageData(format, data)] *)
Definition ImageData (format : string) (data : list byte) : Input :=
  InImage ("image/" +:+ format) data.

Record GeminiService : Type := {
  model : string;
  imageModel : string
}.

Record CacheEntry : Type := {
  OriginalImageBase64 : string;
  MimeType : string;
  CreatedAt : Z
}.

(* ------------------------------------------------------------------- *)
(** *** The environment and the process state                            *)
(* ------------------------------------------------------------------- *)

(** What the process does not control: the random source, the provider
    and the JSON decoder.  [rand_Read n] is the [n]-th draw of random
    bytes; [GEMINI_API_KEY] is the environment variable and [NewClient]
    whether the client could be built; [GenerateContent n m parts] is
    the provider's answer to the
    [n]-th call, the response pointer (possibly nil) or the error (a call
    abandoned at its deadline is an error like any other). *)
Record Env : Type := {
  rand_Read : nat -> list byte;
  GenerateContent :
    nat -> string -> list Input -> res (option GenerateContentResponse);
  json_Unmarshal : string -> res ClothingAnalysis;
  GEMINI_API_KEY : string;
  NewClient : res unit
}.

(** The mutable state: the entries of the global [imageCache], the
    clock, and how often the random source and the provider were used
    (the provider calls are logged, most recent first). *)
Record World : Type := {
  entries : gmap string CacheEntry;
  now : Z;
  rand_calls : nat;
  provider_calls : list (string * list Input)
}.

Definition set_entries (m : gmap string CacheEntry) (w : World) : World :=
  {| entries := m; now := now w; rand_calls := rand_calls w;
     provider_calls := provider_calls w |}.

Definition set_now (t : Z) (w : World) : World :=
  {| entries := entries w; now := t; rand_calls := rand_calls w;
     provider_calls := provider_calls w |}.

Definition set_rand_calls (n : nat) (w : World) : World :=
  {| entries := entries w; now := now w; rand_calls := n;
     provider_calls := provider_calls w |}.

Definition set_provider_calls (l : list (string * list Input)) (w : World)
  : World :=
  {| entries := entries w; now := now w; rand_calls := rand_calls w;
     provider_calls := l |}.

(** Stateful code that may panic. *)
Definition M (A : Type) : Type := World -> outcome A * World.

Definition ret {A} (a : A) : M A := fun w => (Done a, w).

Definition bind {A B} (m : M A) (k : A -> M B) : M B :=
  fun w =>
    match m w with
    | (Done a, w') => k a w'
    | (Panicked msg, w') => (Panicked msg, w')
    end.

Definition panic {A} (msg : string) : M A := fun w => (Panicked msg, w).

Definition lift {A} (o : outcome A) : M A := fun w => (o, w).

Notation "x <- m ;; k" := (bind m (fun x => k))
  (at level 100, m at next level, right associativity).

Definition nil_dereference : string :=
  "invalid memory address or nil pointer dereference".
Definition index_out_of_range : string := "index out of range [0] with length 0".
Definition slice_out_of_range : string := "slice bounds out of range [:30]".

Section WithEnv.
Variable env : Env.

(** One call to the provider: the answer is the environment's, and
    the call is logged. *)
Definition callProvider (m : string) (parts : list Input)
  : M (res (option GenerateContentResponse)) :=
  fun w =>
    (Done (GenerateContent env (List.length (provider_calls w)) m parts),
     set_provider_calls ((m, parts) :: provider_calls w) w).

(* ----------------------------------------------------------------- *)
(** *** Helpers of the Gemini service                                  *)
(* ----------------------------------------------------------------- *)

Fixpoint extractTextFromParts (parts : list Part) : string :=
  match parts with
  | [] => EmptyString
  | Text text :: _ => text
  | _ :: rest => extractTextFromParts rest
  end.

Fixpoint firstBlob (parts : list Part) : option (list byte) :=
  match parts with
  | [] => None
  | Blob _ data :: _ => Some data
  | _ :: rest => firstBlob rest
  end.

Definition extractImageFromResponse (resp : option GenerateContentResponse)
  : res string :=
  match resp with
  | None => Err (Errorf "no response from AI")
  | Some resp =>
      match Candidates resp with
      | [] => Err (Errorf "no response from AI")
      | c :: _ =>
          match firstBlob (Parts (CandidateContent c)) with
          | Some data => Ok (Base64.EncodeToString data)
          | None => Err (Errorf "no image generated")
          end
      end
  end.

Definition cleanJSONResponse (text : string) : string :=
  let text := TrimSpace text in
  let text :=
    if HasPrefix text "```json" then TrimPrefix text "```json" else text in
  let text := if HasPrefix text "```" then TrimPrefix text "```" else text in
  let text := if HasSuffix text "```" then TrimSuffix text "```" else text in
  TrimSpace text.

(** The payload handed to the decoder: what follows the first comma,
    or the whole text when there is none. *)
Definition afterComma (imageBase64 : string) : string :=
  match Cut imageBase64 "," with
  | (_, after, true) => after
  | (_, _, false) => imageBase64
  end.

(** On a decoding error the log line slices the first 30 bytes of the
    payload, which panics on a shorter one. *)
Definition decodeBase64Image (imageBase64 : string)
  : outcome (res (list byte)) :=
  let imageBase64 := afterComma imageBase64 in
  match Base64.DecodeString imageBase64 with
  | Ok data => Done (Ok data)
  | Err err =>
      if (String.length imageBase64 <? 30)%nat
      then Panicked slice_out_of_range
      else Done (Err (Wrapf "failed to decode base64 image" err))
  end.

(* ----------------------------------------------------------------- *)
(** *** The Gemini service                                             *)
(* ----------------------------------------------------------------- *)

Definition NewGeminiService : res GeminiService :=
  if String.eqb (GEMINI_API_KEY env) EmptyString
  then Err (Errorf "GEMINI_API_KEY environment variable not set")
  else
    match NewClient env with
    | Err err => Err (Wrapf "failed to create Gemini client" err)
    | Ok _ =>
        Ok {| model := "gemini-3-flash-preview";
              imageModel := "gemini-3-pro-image-preview" |}
    end.

Definition AnalyzeClothing (s : GeminiService)
    (imageBase64 mimeType : string) : M (res ClothingAnalysis) :=
  imageData <- lift (decodeBase64Image imageBase64) ;;
  match imageData with
  | Err err => ret (Err err)
  | Ok imageData =>
      let mimeType := TrimPrefix mimeType "image/" in
      resp <- callProvider (model s)
                [ImageData mimeType imageData; InText AnalyzePrompt] ;;
      match resp with
      | Err err => ret (Err (Wrapf "failed to analyze image" err))
      | Ok None => panic nil_dereference
      | Ok (Some resp) =>
          match Candidates resp with
          | [] => ret (Err (Errorf "no response from AI"))
          | c :: _ =>
              match Parts (CandidateContent c) with
              | [] => ret (Err (Errorf "no response from AI"))
              | parts =>
                  let text := cleanJSONResponse (extractTextFromParts parts) in
                  match json_Unmarshal env text with
                  | Err err => ret (Err (Wrapf "failed to parse analysis" err))
                  | Ok analysis => ret (Ok analysis)
                  end
              end
          end
      end
  end.

(** The first candidate is indexed without a length check. *)
Definition RefineClothingAnalysis (s : GeminiService)
    (imageBase64 userFeedback mimeType : string)
  : M (res ClothingAnalysis) :=
  imageData <- lift (decodeBase64Image imageBase64) ;;
  match imageData with
  | Err err => ret (Err err)
  | Ok imageData =>
      resp <- callProvider (model s)
                [ImageData mimeType imageData;
                 InText (RefineAnalysisPrompt userFeedback)] ;;
      match resp with
      | Err _ => AnalyzeClothing s imageBase64 mimeType
      | Ok None => panic nil_dereference
      | Ok (Some resp) =>
          match Candidates resp with
          | [] => panic index_out_of_range
          | c :: _ =>
              let text :=
                cleanJSONResponse
                  (extractTextFromParts (Parts (CandidateContent c))) in
              match json_Unmarshal env text with
              | Err _ => AnalyzeClothing s imageBase64 mimeType
              | Ok analysis => ret (Ok analysis)
              end
          end
      end
  end.

Definition GenerateCutout (s : GeminiService)
    (imageBase64 mimeType : string) : M (res string) :=
  imageData <- lift (decodeBase64Image imageBase64) ;;
  match imageData with
  | Err err => ret (Err err)
  | Ok imageData =>
      let mimeType := TrimPrefix mimeType "image/" in
      resp <- callProvider (imageModel s)
                [ImageData mimeType imageData; InText CutoutPrompt] ;;
      match resp with
      | Err err => ret (Err (Wrapf "failed to generate cutout" err))
      | Ok resp => ret (extractImageFromResponse resp)
      end
  end.

Definition GenerateAvatar (s : GeminiService)
    (faceImageBase64 mimeType : string) (metrics : AvatarMetrics)
  : M (res string) :=
  imageData <- lift (decodeBase64Image faceImageBase64) ;;
  match imageData with
  | Err err => ret (Err err)
  | Ok imageData =>
      resp <- callProvider (imageModel s)
                [ImageData mimeType imageData; InText (AvatarPrompt metrics)] ;;
      match resp with
      | Err err => ret (Err (Wrapf "failed to generate avatar" err))
      | Ok resp => ret (extractImageFromResponse resp)
      end
  end.

(** The images of a collage or a try-on go to the decoder as they
    are; one that does not decode is skipped. *)
Fixpoint decodeItems (itemImagesBase64 : list string) : list Input :=
  match itemImagesBase64 with
  | [] => []
  | img :: rest =>
      match Base64.DecodeString img with
      | Err _ => decodeItems rest
      | Ok imageData => ImageData "image/jpeg" imageData :: decodeItems rest
      end
  end.

Definition GenerateCollage (s : GeminiService)
    (itemImagesBase64 : list string) : M (res string) :=
  let parts := decodeItems itemImagesBase64 in
  match parts with
  | [] => ret (Err (Errorf "no valid images provided"))
  | _ :: _ =>
      resp <- callProvider (imageModel s) (parts ++ [InText CollagePrompt]) ;;
      match resp with
      | Err err => ret (Err (Wrapf "failed to generate collage" err))
      | Ok resp => ret (extractImageFromResponse resp)
      end
  end.

Definition VirtualTryOn (s : GeminiService) (avatarImageBase64 : string)
    (itemImagesBase64 : list string) : M (res string) :=
  match Base64.DecodeString avatarImageBase64 with
  | Err err => ret (Err (Wrapf "failed to decode avatar" err))
  | Ok avatarData =>
      let parts :=
        ImageData "image/jpeg" avatarData :: decodeItems itemImagesBase64 in
      resp <- callProvider (imageModel s) (parts ++ [InText TryOnPrompt]) ;;
      match resp with
      | Err err => ret (Err (Wrapf "failed to generate try-on" err))
      | Ok resp => ret (extractImageFromResponse resp)
      end
  end.

(** Modelled from the spec: [GeminiService.RefineCutout], which the
    refine handler calls and whose source is not part of the
    repository snapshot.  It decodes the cached original and the
    current cutout (data-URI prefix stripped), sends both with the
    feedback to the image model, and returns the first binary part of
    the answer; a provider error and an answer without candidate or
    binary part are errors. *)
Definition RefineCutout (s : GeminiService)
    (originalBase64 currentCutoutBase64 userFeedback mimeType : string)
  : M (res string) :=
  originalData <- lift (decodeBase64Image originalBase64) ;;
  match originalData with
  | Err err => ret (Err err)
  | Ok originalData =>
      currentData <- lift (decodeBase64Image currentCutoutBase64) ;;
      match currentData with
      | Err err => ret (Err err)
      | Ok currentData =>
          let mimeType := TrimPrefix mimeType "image/" in
          resp <- callProvider (imageModel s)
                    [ImageData mimeType originalData;
                     ImageData mimeType currentData;
                     InText (RefineCutoutPrompt userFeedback)] ;;
          match resp with
          | Err err => ret (Err (Wrapf "failed to refine cutout" err))
          | Ok resp => ret (extractImageFromResponse resp)
          end
      end
  end.

(* ----------------------------------------------------------------- *)
(** *** The image cache                                                *)
(* ----------------------------------------------------------------- *)

Definition Nanosecond : Z := 1.
Definition Second : Z := 1000000000 * Nanosecond.
Definition Minute : Z := 60 * Second.

Definition maxDuration : Z := 2 ^ 63 - 1.
Definition minDuration : Z := - 2 ^ 63.

(** [t.Sub(u)]: the difference as a 64-bit [Duration], saturating. *)
Definition Sub (t u : Z) : Z :=
  let d := t - u in
  if d >? maxDuration then maxDuration
  else if d <? minDuration then minDuration
  else d.

(** Sixteen bytes, zero where the random source did not fill them. *)
Definition generateCacheID : M string :=
  fun w =>
    let bytes := take 16 (rand_Read env (rand_calls w) ++ replicate 16 x00) in
    (Done (Hex.EncodeToString bytes), set_rand_calls (S (rand_calls w)) w).

Definition Store (imageBase64 mimeType : string) : M string :=
  cacheID <- generateCacheID ;;
  fun w =>
    let entry := {| OriginalImageBase64 := imageBase64;
                    MimeType := mimeType;
                    CreatedAt := now w |} in
    (Done cacheID, set_entries (<[cacheID := entry]> (entries w)) w).

Definition Get (cacheID : string) : M (option CacheEntry) :=
  fun w => (Done (entries w !! cacheID), w).

Definition Delete (cacheID : string) : M bool :=
  fun w =>
    match entries w !! cacheID with
    | Some _ => (Done true, set_entries (delete cacheID (entries w)) w)
    | None => (Done false, w)
    end.

Definition expiry : Z := 30 * Minute.

(** The body of the loop of [cleanup], for the entry [entry] found
    under [id], on the map [m] as the loop has left it so far. *)
Definition sweepEntry (now : Z) (id : string) (entry : CacheEntry)
    (m : gmap string CacheEntry) : gmap string CacheEntry :=
  if Sub now (CreatedAt entry) >? expiry then delete id m else m.

(** One pass over the map, deleting as it goes. *)
Definition cleanup : M unit :=
  fun w =>
    let now := now w in
    (Done tt,
     set_entries (map_fold (sweepEntry now) (entries w) (entries w)) w).

Definition Count : M Z :=
  fun w => (Done (Z.of_nat (size (entries w))), w).

(** Time passing. *)
Definition sleep (d : Z) : M unit :=
  fun w => (Done tt, set_now (now w + Z.max 0 d) w).

(** [cleanupLoop], for a number of ticks of its five-minute ticker when
    nothing else runs in between. *)
Fixpoint cleanupLoop (ticks : nat) : M unit :=
  match ticks with
  | O => ret tt
  | S ticks' => _ <- sleep (5 * Minute) ;; _ <- cleanup ;; cleanupLoop ticks'
  end.

(* ----------------------------------------------------------------- *)
(** *** Schedules of cache operations                                  *)
(* ----------------------------------------------------------------- *)

(** The lock makes every operation atomic, so what the request
    goroutines and the sweeper do to one cache is a sequence of
    operations, with time passing in between. *)
Inductive Event : Type :=
| EvStore (imageBase64 mimeType : string)
| EvGet (cacheID : string)
| EvDelete (cacheID : string)
| EvCleanup
| EvSleep (d : Z).

Inductive Reply : Type :=
| RStore (cacheID : string)
| RGet (entry : option CacheEntry)
| RDelete (deleted : bool)
| RNone.

Definition step (ev : Event) : M Reply :=
  match ev with
  | EvStore imageBase64 mimeType =>
      id <- Store imageBase64 mimeType ;; ret (RStore id)
  | EvGet cacheID => e <- Get cacheID ;; ret (RGet e)
  | EvDelete cacheID => b <- Delete cacheID ;; ret (RDelete b)
  | EvCleanup => _ <- cleanup ;; ret RNone
  | EvSleep d => _ <- sleep d ;; ret RNone
  end.

Fixpoint run (evs : list Event) : M (list Reply) :=
  match evs with
  | [] => ret []
  | ev :: rest => r <- step ev ;; rs <- run rest ;; ret (r :: rs)
  end.

(** The id the next [Store] will mint. *)
Definition nextID (w : World) : string :=
  Hex.EncodeToString (take 16 (rand_Read env (rand_calls w) ++ replicate 16 x00)).

(** A schedule leaves the entry [id], created at [t0], alone: it does
    not delete it, no [Store] draws the same id again, and no sweep
    runs once the entry is older than the retention window. *)
Fixpoint undisturbed (id : string) (t0 : Z) (evs : list Event) (w : World)
  : bool :=
  match evs with
  | [] => true
  | ev :: rest =>
      match ev with
      | EvStore _ _ => negb (String.eqb (nextID w) id)
      | EvDelete cacheID => negb (String.eqb cacheID id)
      | EvCleanup => now w - t0 <=? expiry
      | EvGet _ | EvSleep _ => true
      end
      && undisturbed id t0 rest (snd (step ev w))
  end.

(** No [Store] of the schedule draws [id]. *)
Fixpoint not_restored (id : string) (evs : list Event) (w : World) : bool :=
  match evs with
  | [] => true
  | ev :: rest =>
      match ev with
      | EvStore _ _ => negb (String.eqb (nextID w) id)
      | _ => true
      end
      && not_restored id rest (snd (step ev w))
  end.

End WithEnv.
End Services.

(* ===================================================================== *)
(** ** The HTTP handlers of the AI proxy                                  *)
(* ===================================================================== *)

Module Handlers.
Import Services.

(** The values put into a [gin.H]. *)
Inductive JSON : Type :=
| JString (s : string)
| JBool (b : bool).

(** What [c.JSON(status, body)] sends. *)
Record Response : Type := {
  Status : Z;
  Body : gmap string JSON
}.

Definition StatusOK : Z := 200.
Definition StatusBadRequest : Z := 400.
Definition StatusInternalServerError : Z := 500.

Record AIHandler : Type := { gemini : option GeminiService }.

Module GenerateCutoutRequest.
Record t : Type := { ImageBase64 : string; MimeType : string }.
End GenerateCutoutRequest.

Module RefineCutoutRequest.
Record t : Type := {
  CacheID : string;
  CurrentCutoutBase64 : string;
  UserFeedback : string;
  MimeType : string
}.
End RefineCutoutRequest.

Module ClearCacheRequest.
Record t : Type := { CacheID : string }.
End ClearCacheRequest.

Definition errorBody (err : error) : gmap string JSON :=
  {[ "error" := JString (Error err) ]}.

Definition session_expired : string :=
  "Cache expired or not found. Please regenerate from original.".

Section WithEnv.
Variable env : Env.

Definition NewAIHandler : AIHandler :=
  match NewGeminiService env with
  | Err _ => {| gemini := None |}
  | Ok g => {| gemini := Some g |}
  end.

(** Each handler is given what [c.ShouldBindJSON(&req)] produced: the
    bound request or the binding error. *)
Definition GenerateCutout (h : AIHandler)
    (bound : res GenerateCutoutRequest.t) : M Response :=
  match bound with
  | Err err => ret {| Status := StatusBadRequest; Body := errorBody err |}
  | Ok req =>
      let imageBase64 := GenerateCutoutRequest.ImageBase64 req in
      let mimeType := GenerateCutoutRequest.MimeType req in
      cacheID <- Store env imageBase64 mimeType ;;
      match gemini h with
      | None =>
          ret {| Status := StatusOK;
                 Body := {[ "message" := JString "Cutout generation - Gemini not configured";
                            "imageUrl" := JString "https://picsum.photos/400/600";
                            "cacheId" := JString cacheID ]} |}
      | Some g =>
          r <- Services.GenerateCutout env g imageBase64 mimeType ;;
          match r with
          | Err err =>
              _ <- Delete cacheID ;;
              ret {| Status := StatusInternalServerError; Body := errorBody err |}
          | Ok imageBase64 =>
              ret {| Status := StatusOK;
                     Body := {[ "imageBase64" := JString imageBase64;
                                "cacheId" := JString cacheID;
                                "message" := JString "Cutout generated successfully" ]} |}
          end
      end
  end.

Definition RefineCutout (h : AIHandler)
    (bound : res RefineCutoutRequest.t) : M Response :=
  match bound with
  | Err err => ret {| Status := StatusBadRequest; Body := errorBody err |}
  | Ok req =>
      let cacheID := RefineCutoutRequest.CacheID req in
      let current := RefineCutoutRequest.CurrentCutoutBase64 req in
      entry <- Get cacheID ;;
      match entry with
      | None =>
          ret {| Status := StatusBadRequest;
                 Body := {[ "error" := JString session_expired ]} |}
      | Some entry =>
          match gemini h with
          | None =>
              ret {| Status := StatusOK;
                     Body := {[ "message" := JString "Cutout refinement - Gemini not configured";
                                "imageBase64" := JString current;
                                "cacheId" := JString cacheID ]} |}
          | Some g =>
              r <- Services.RefineCutout env g (OriginalImageBase64 entry)
                     current (RefineCutoutRequest.UserFeedback req)
                     (RefineCutoutRequest.MimeType req) ;;
              match r with
              | Err err =>
                  ret {| Status := StatusInternalServerError;
                         Body := errorBody err |}
              | Ok imageBase64 =>
                  ret {| Status := StatusOK;
                         Body := {[ "imageBase64" := JString imageBase64;
                                    "cacheId" := JString cacheID;
                                    "message" := JString "Cutout refined successfully" ]} |}
              end
          end
      end
  end.

Definition ClearImageCache (h : AIHandler)
    (bound : res ClearCacheRequest.t) : M Response :=
  match bound with
  | Err err => ret {| Status := StatusBadRequest; Body := errorBody err |}
  | Ok req =>
      deleted <- Delete (ClearCacheRequest.CacheID req) ;;
      ret {| Status := StatusOK;
             Body := {[ "success" := JBool deleted;
                        "message" := JString "Cache cleared" ]} |}
  end.

End WithEnv.
End Handlers.

(* ===================================================================== *)
(** ** The other endpoints of the AI proxy                                *)
(* ===================================================================== *)

Module Endpoints.
Import Services Handlers.

Module GenerateAvatarRequest.
Record t : Type := {
  FaceImageBase64 : string;
  MimeType : string;
  Gender : string;
  Height : string;
  Weight : string;
  Bust : string;
  Waist : string;
  Hips : string;
  Thigh : string;
  Calf : string;
  Features : string
}.
End GenerateAvatarRequest.

Module GenerateCollageRequest.
Record t : Type := { ItemImages : list string }.
End GenerateCollageRequest.

Module VirtualTryOnRequest.
Record t : Type := { AvatarImageBase64 : string; ItemImages : list string }.
End VirtualTryOnRequest.

Section WithEnv.
Variable env : Env.

Definition GenerateAvatar (h : AIHandler)
    (bound : res GenerateAvatarRequest.t) : M Response :=
  match bound with
  | Err err => ret {| Status := StatusBadRequest; Body := errorBody err |}
  | Ok req =>
      match gemini h with
      | None =>
          ret {| Status := StatusOK;
                 Body := {[ "message" := JString "Avatar generation - Gemini not configured";
                            "imageUrl" := JString "https://picsum.photos/400/600" ]} |}
      | Some g =>
          let metrics :=
            {| Services.Gender := GenerateAvatarRequest.Gender req;
               Services.Height := GenerateAvatarRequest.Height req;
               Services.Weight := GenerateAvatarRequest.Weight req;
               Services.Bust := GenerateAvatarRequest.Bust req;
               Services.Waist := GenerateAvatarRequest.Waist req;
               Services.Hips := GenerateAvatarRequest.Hips req;
               Services.Thigh := GenerateAvatarRequest.Thigh req;
               Services.Calf := GenerateAvatarRequest.Calf req;
               Services.Features := GenerateAvatarRequest.Features req |} in
          r <- Services.GenerateAvatar env g
                 (GenerateAvatarRequest.FaceImageBase64 req)
                 (GenerateAvatarRequest.MimeType req) metrics ;;
          match r with
          | Err err =>
              ret {| Status := StatusInternalServerError; Body := errorBody err |}
          | Ok imageBase64 =>
              ret {| Status := StatusOK;
                     Body := {[ "imageBase64" := JString imageBase64;
                                "message" := JString "Avatar generated successfully" ]} |}
          end
      end
  end.

Definition GenerateCollage (h : AIHandler)
    (bound : res GenerateCollageRequest.t) : M Response :=
  match bound with
  | Err err => ret {| Status := StatusBadRequest; Body := errorBody err |}
  | Ok req =>
      match gemini h with
      | None =>
          ret {| Status := StatusOK;
                 Body := {[ "message" := JString "Collage generation - Gemini not configured";
                            "collageUrl" := JString "https://picsum.photos/600/800" ]} |}
      | Some g =>
          r <- Services.GenerateCollage env g (GenerateCollageRequest.ItemImages req) ;;
          match r with
          | Err err =>
              ret {| Status := StatusInternalServerError; Body := errorBody err |}
          | Ok imageBase64 =>
              ret {| Status := StatusOK;
                     Body := {[ "imageBase64" := JString imageBase64;
                                "message" := JString "Collage generated successfully" ]} |}
          end
      end
  end.

Definition VirtualTryOn (h : AIHandler)
    (bound : res VirtualTryOnRequest.t) : M Response :=
  match bound with
  | Err err => ret {| Status := StatusBadRequest; Body := errorBody err |}
  | Ok req =>
      match gemini h with
      | None =>
          ret {| Status := StatusOK;
                 Body := {[ "message" := JString "Virtual try-on - Gemini not configured";
                            "tryOnUrl" := JString "https://picsum.photos/400/600" ]} |}
      | Some g =>
          r <- Services.VirtualTryOn env g
                 (VirtualTryOnRequest.AvatarImageBase64 req)
                 (VirtualTryOnRequest.ItemImages req) ;;
          match r with
          | Err err =>
              ret {| Status := StatusInternalServerError; Body := errorBody err |}
          | Ok imageBase64 =>
              ret {| Status := StatusOK;
                     Body := {[ "imageBase64" := JString imageBase64;
                                "message" := JString "Virtual try-on generated successfully" ]} |}
          end
      end
  end.

End WithEnv.
End Endpoints.

(* ===================================================================== *)
(** ** Authentication in front of the AI routes                           *)
(* ===================================================================== *)

Module Auth.

(** [jwt.RegisteredClaims]; the dates are pointers. *)
Record RegisteredClaims : Type := {
  Issuer : string;
  Subject : string;
  Audience : list string;
  ExpiresAt : option Z;
  NotBefore : option Z;
  IssuedAt : option Z;
  ID : string
}.

Record JWTClaims : Type := {
  UserID : string;
  Email : string;
  Registered : RegisteredClaims
}.

Inductive SigningMethod : Type :=
| SigningMethodHMAC (alg : string)
| OtherSigningMethod (alg : string).

(** A parsed token: [Claims] is what the assertion to [*JWTClaims]
    yields. *)
Record Token : Type := {
  Method : SigningMethod;
  Claims : option JWTClaims;
  Valid : bool
}.

Record AuthService : Type := { secretKey : string }.

Section WithLibrary.
(** The environment variable and the parser of the JWT library, which is
    handed the function that selects the key. *)
Variable JWT_SECRET : string.
Variable ParseWithClaims : string -> (Token -> res string) -> res Token.

Definition NewAuthService : AuthService :=
  let secret :=
    if String.eqb JWT_SECRET EmptyString
    then "cotton-cloud-default-secret-change-in-production"
    else JWT_SECRET in
  {| secretKey := secret |}.

Definition keyfunc (s : AuthService) (token : Token) : res string :=
  match Method token with
  | SigningMethodHMAC _ => Ok (secretKey s)
  | OtherSigningMethod _ => Err (Errorf "unexpected signing method")
  end.

Definition ValidateToken (s : AuthService) (tokenString : string) : res JWTClaims :=
  match ParseWithClaims tokenString (keyfunc s) with
  | Err err => Err err
  | Ok token =>
      match Claims token with
      | Some claims => if Valid token then Ok claims else Err (Errorf "invalid token")
      | None => Err (Errorf "invalid token")
      end
  end.

End WithLibrary.
End Auth.

Module Middleware.
Import GoStrings Auth.

(** A value stored in the request context by [c.Set]. *)
Inductive Value : Type :=
| VString (s : string)
| VClaims (claims : JWTClaims).

(** The middleware either passes the request on, with the keys it has
    set, or answers it and aborts the chain. *)
Inductive Flow : Type :=
| Next (keys : gmap string Value)
| Abort (status : Z) (body : gmap string Handlers.JSON).

Definition StatusUnauthorized : Z := 401.

Definition unauthorized (msg : string) : Flow :=
  Abort StatusUnauthorized {[ "error" := Handlers.JString msg ]}.

Section WithLibrary.
Variable JWT_SECRET : string.
Variable ParseWithClaims : string -> (Token -> res string) -> res Token.

(** [authHeader] is [c.GetHeader("Authorization")] and [userIDQuery] is
    [c.Query("user_id")], both empty when absent; [keys] are the keys of
    the context so far. *)
Definition AuthMiddleware (authHeader userIDQuery : string)
    (keys : gmap string Value) : Flow :=
  let authService := NewAuthService JWT_SECRET in
  if String.eqb authHeader EmptyString then
    if negb (String.eqb userIDQuery EmptyString) then
      Next (<["email" := VString "demo@example.com"]>
              (<["userID" := VString userIDQuery]> keys))
    else
      Next (<["email" := VString "demo@example.com"]>
              (<["userID" := VString "demo-user"]> keys))
  else if negb (HasPrefix authHeader "Bearer ") then
    unauthorized "Invalid authorization format"
  else
    let tokenString := TrimPrefix authHeader "Bearer " in
    match ValidateToken ParseWithClaims authService tokenString with
    | Err _ => unauthorized "Invalid or expired token"
    | Ok claims =>
        Next (<["claims" := VClaims claims]>
                (<["email" := VString (Email claims)]>
                   (<["userID" := VString (UserID claims)]> keys)))
    end.

Definition RequireAuth (authHeader : string) (keys : gmap string Value) : Flow :=
  let authService := NewAuthService JWT_SECRET in
  if String.eqb authHeader EmptyString then
    unauthorized "Authentication required"
  else if negb (HasPrefix authHeader "Bearer ") then
    unauthorized "Invalid authorization format"
  else
    let tokenString := TrimPrefix authHeader "Bearer " in
    match ValidateToken ParseWithClaims authService tokenString with
    | Err _ => unauthorized "Invalid or expired token"
    | Ok claims =>
        Next (<["claims" := VClaims claims]>
                (<["email" := VString (Email claims)]>
                   (<["userID" := VString (UserID claims)]> keys)))
    end.

End WithLibrary.

Definition interface_conversion : string :=
  "interface conversion: interface {} is not string".

(** The assertion to [string] panics on any other value. *)
Definition GetUserID (keys : gmap string Value) : outcome string :=
  match keys !! "userID" with
  | Some (VString userID) => Done userID
  | Some _ => Panicked interface_conversion
  | None => Done "demo-user"
  end.

Definition GetEmail (keys : gmap string Value) : outcome string :=
  match keys !! "email" with
  | Some (VString email) => Done email
  | Some _ => Panicked interface_conversion
  | None => Done "demo@example.com"
  end.

End Middleware.

(* ===================================================================== *)
(** ** The avatar model                                                   *)
(* ===================================================================== *)

Module Models.

Record AvatarMetrics : Type := {
  Gender : string;
  Height : string;
  Weight : string;
  Bust : string;
  Waist : string;
  Hips : string;
  Thigh : string;
  Calf : string;
  Features : string
}.

Record AvatarProfile : Type := {
  ID : string;
  UserID : string;
  Name : string;
  Tag : string;
  ImageURL : string;
  IsActive : bool;
  MetricsGender : string;
  MetricsHeight : string;
  MetricsWeight : string;
  MetricsBust : string;
  MetricsWaist : string;
  MetricsHips : string;
  MetricsThigh : string;
  MetricsCalf : string;
  MetricsFeatures : string;
  CreatedAt : Z;
  UpdatedAt : Z
}.

Definition GetMetrics (a : AvatarProfile) : AvatarMetrics :=
  {| Gender := MetricsGender a;
     Height := MetricsHeight a;
     Weight := MetricsWeight a;
     Bust := MetricsBust a;
     Waist := MetricsWaist a;
     Hips := MetricsHips a;
     Thigh := MetricsThigh a;
     Calf := MetricsCalf a;
     Features := MetricsFeatures a |}.

Definition SetMetrics (a : AvatarProfile) (m : AvatarMetrics) : AvatarProfile :=
  {| ID := ID a; UserID := UserID a; Name := Name a; Tag := Tag a;
     ImageURL := ImageURL a; IsActive := IsActive a;
     MetricsGender := Gender m;
     MetricsHeight := Height m;
     MetricsWeight := Weight m;
     MetricsBust := Bust m;
     MetricsWaist := Waist m;
     MetricsHips := Hips m;
     MetricsThigh := Thigh m;
     MetricsCalf := Calf m;
     MetricsFeatures := Features m;
     CreatedAt := CreatedAt a; UpdatedAt := UpdatedAt a |}.

End Models.

(* ===================================================================== *)
(** ** Vocabulary of the statements and concrete environments             *)
(* ===================================================================== *)

Import GoStrings Genai Services.

(** The text holds no comma. *)
Fixpoint no_comma (s : string) : bool :=
  match s with
  | EmptyString => true
  | String c s' => negb (Ascii.eqb c ","%char) && no_comma s'
  end.

(** Decoding a text as it is: no prefix is looked for, the error is
    reported as the helper reports it. *)
Definition decodeAsIs (payload : string) : outcome (res (list byte)) :=
  match Base64.DecodeString payload with
  | Ok data => Done (Ok data)
  | Err err =>
      if (String.length payload <? 30)%nat
      then Panicked slice_out_of_range
      else Done (Err (Wrapf "failed to decode base64 image" err))
  end.

(** The refine call to the provider came back with an error, or with a
    first candidate whose text does not parse. *)
Definition refine_call_failed (env : Env)
    (answer : res (option GenerateContentResponse)) : bool :=
  match answer with
  | Err _ => true
  | Ok None => false
  | Ok (Some resp) =>
      match Candidates resp with
      | [] => false
      | c :: _ =>
          is_Err (json_Unmarshal env
                    (cleanJSONResponse
                       (extractTextFromParts (Parts (CandidateContent c)))))
      end
  end.

(** The world once one more provider call has been logged. *)
Definition called (m : string) (parts : list Input) (w : World) : World :=
  set_provider_calls ((m, parts) :: provider_calls w) w.

Definition the_service : GeminiService :=
  {| model := "gemini-3-flash-preview";
     imageModel := "gemini-3-pro-image-preview" |}.

Definition fresh_world : World :=
  {| entries := ∅; now := 0; rand_calls := 0; provider_calls := [] |}.

(** A JSON decoder for the examples: it accepts only the empty object. *)
Definition toy_Unmarshal (text : string) : res ClothingAnalysis :=
  if String.eqb text "{}"
  then Ok {| Category := EmptyString; Color := EmptyString;
             Material := EmptyString; Description := EmptyString;
             Tags := []; Style := []; Season := [] |}
  else Err UnmarshalError.

(** The random source of the examples: the [n]-th draw is sixteen times
    the byte [n]. *)
Definition toy_rand (n : nat) : list byte :=
  replicate 16 (Base64.byte_of_N (N.of_nat n)).

(** A provider that is down: every call runs into its deadline. *)
Definition env_down : Env :=
  {| rand_Read := toy_rand;
     GenerateContent := fun _ _ _ => Err (ProviderError "context deadline exceeded");
     json_Unmarshal := toy_Unmarshal;
     GEMINI_API_KEY := "key";
     NewClient := Ok tt |}.

(** A provider that answers every call with no candidate at all. *)
Definition env_empty : Env :=
  {| rand_Read := toy_rand;
     GenerateContent := fun _ _ _ => Ok (Some {| Candidates := [] |});
     json_Unmarshal := toy_Unmarshal;
     GEMINI_API_KEY := "key";
     NewClient := Ok tt |}.

(** A provider that answers every call with one image. *)
Definition env_up : Env :=
  {| rand_Read := toy_rand;
     GenerateContent := fun _ _ _ =>
       Ok (Some {| Candidates :=
                     [ {| CandidateContent :=
                            {| Parts := [Text "done"; Blob "image/png" ["h"; "i"]%byte] |} |} ] |});
     json_Unmarshal := toy_Unmarshal;
     GEMINI_API_KEY := "key";
     NewClient := Ok tt |}.

(** The ticker of the sweeper fires every five minutes from the creation
    of the cache; an entry stored one minute in is 29 minutes old at the
    sixth sweep, which keeps it, and still there two minutes later. *)
Definition late_read : list Event :=
  [EvSleep (1 * Minute); EvStore "aGk=" "image/jpeg";
   EvSleep (4 * Minute); EvCleanup;
   EvSleep (5 * Minute); EvCleanup;
   EvSleep (5 * Minute); EvCleanup;
   EvSleep (5 * Minute); EvCleanup;
   EvSleep (5 * Minute); EvCleanup;
   EvSleep (5 * Minute); EvCleanup;
   EvSleep (2 * Minute)].

(** An image that is not base64, 32 bytes long, and a request carrying it. *)
Definition malformed_image : string := "!!!!!!!!!!!!!!!!!!!!!!!!!!!!!!!!".

Definition malformed_request : Handlers.GenerateCutoutRequest.t :=
  {| Handlers.GenerateCutoutRequest.ImageBase64 := malformed_image;
     Handlers.GenerateCutoutRequest.MimeType := "image/jpeg" |}.

(** A character of a cache id: a lower-case hexadecimal digit. *)
Definition isLowerHex (c : ascii) : bool :=
  let n := N_of_ascii c in
  ((48 <=? n) && (n <=? 57) || (97 <=? n) && (n <=? 102))%N.

(** The shape of a cache id: 32 lower-case hexadecimal digits. *)
Definition is_cache_id (s : string) : bool :=
  (String.length s =? 32)%nat && forallb isLowerHex (list_ascii_of_string s).

(** The sixteen bytes a draw of the random source leaves in the buffer. *)
Definition drawn (env : Env) (n : nat) : list byte :=
  take 16 (rand_Read env n ++ replicate 16 x00).

(** Every key of the cache has the shape of a cache id, and no entry
    was created after the current time. *)
Definition cache_ok (w : World) : bool :=
  bool_decide
    (map_Forall (fun id e => is_cache_id id = true /\ CreatedAt e <= now w)
       (entries w)).

(** What a sweep at time [t] leaves of an entry: itself if it is at most
    30 minutes old, nothing otherwise. *)
Definition kept_at (t : Z) (entry : option CacheEntry) : option CacheEntry :=
  match entry with
  | Some e => if t - CreatedAt e >? expiry then None else Some e
  | None => None
  end.

(** The plain decoder rejects the text. *)
Definition undecodable (img : string) : bool := is_Err (Base64.DecodeString img).

(** From [w] to [w'] nothing has happened but at most [n] calls to the
    provider: cache, clock and random source are as they were. *)
Definition only_calls (n : nat) (w w' : World) : Prop :=
  entries w' = entries w /\ now w' = now w /\ rand_calls w' = rand_calls w
  /\ exists calls, provider_calls w' = calls ++ provider_calls w
                   /\ (List.length calls <= n)%nat.

(** The image is malformed and, cut at its first comma, shorter than the
    30 bytes the decoder's log line slices. *)
Definition short_malformed (imageBase64 : string) : bool :=
  undecodable (afterComma imageBase64)
  && (String.length (afterComma imageBase64) <? 30)%nat.


(** No API key in the environment, or the client cannot be built. *)
Definition unconfigured (env : Env) : bool :=
  String.eqb (GEMINI_API_KEY env) EmptyString || is_Err (NewClient env).

(** An answer is 200, 400 or 500, and a 400 has cost nothing: the state
    is the one the request found. *)
Definition answered_in_order (w : World)
    (out : outcome Handlers.Response * World) : Prop :=
  match out with
  | (Done resp, w') =>
      (Handlers.Status resp = 200 \/ Handlers.Status resp = 400
       \/ Handlers.Status resp = 500)
      /\ (Handlers.Status resp = 400 -> w' = w)
  | (Panicked _, _) => True
  end.

(** ASCII white space: tab, line feed, vertical tab, form feed, carriage
    return, space. *)
Definition isAsciiSpace (c : ascii) : bool :=
  let n := N_of_ascii c in
  ((9 <=? n) && (n <=? 13) || (n =? 32))%N.

(** A text of ASCII white space only (possibly empty). *)
Definition blank (s : string) : bool :=
  forallb isAsciiSpace (list_ascii_of_string s).

(** The white-space patterns [TrimSpace] strips at the front, and at the
    back of the reversed text. *)
Definition front_spaces : list string := List.map bytes_string spaces.
Definition back_spaces : list string :=
  List.map (fun p => GoStrings.rev (bytes_string p)) spaces.

(** A token parser for the examples: it accepts the token [good], signed
    with an HMAC method, and hands back its claims. *)
Definition toy_claims : Auth.JWTClaims :=
  {| Auth.UserID := "u-17"; Auth.Email := "ada@example.com";
     Auth.Registered :=
       {| Auth.Issuer := "cotton-cloud"; Auth.Subject := "u-17";
          Auth.Audience := []; Auth.ExpiresAt := Some 604800;
          Auth.NotBefore := Some 0; Auth.IssuedAt := Some 0;
          Auth.ID := EmptyString |} |}.

Definition toy_parse (tokenString : string)
    (keyfunc : Auth.Token -> res string) : res Auth.Token :=
  let token := {| Auth.Method := Auth.SigningMethodHMAC "HS256";
                  Auth.Claims := Some toy_claims;
                  Auth.Valid := true |} in
  if String.eqb tokenString "good"
  then match keyfunc token with
       | Ok _ => Ok token
       | Err err => Err err
       end
  else Err (Errorf "token is malformed").

(** The part is no text part. *)
Definition no_text (part : Part) : bool :=
  match part with Text _ => false | _ => true end.

(** A provider that answers every call with a fenced empty object after
    a binary part. *)
Definition env_fenced : Env :=
  {| rand_Read := toy_rand;
     GenerateContent := fun _ _ _ =>
       Ok (Some {| Candidates :=
                     [ {| CandidateContent :=
                            {| Parts := [Blob "image/png" []] ++
                                        Text (" " +:+ "```json" +:+ " " +:+
                                              ("{" +:+ EmptyString +:+ "}") +:+
                                              " " +:+ "```" +:+ " ")
                                        :: [Text "later"] |} |} ] |});
     json_Unmarshal := toy_Unmarshal;
     GEMINI_API_KEY := "key";
     NewClient := Ok tt |}.

(** The text of a JSON object: braces around [inner]. *)
Definition json_object (inner : string) : string :=
  String "{" (inner +:+ String "}" EmptyString).

(* ===================================================================== *)
(** ** The decoding helper                                                *)
(* ===================================================================== *)

Lemma Cut_cons (c : ascii) (s : string) :
  Cut (String c s) "," =
    if Ascii.eqb c ","%char then (EmptyString, s, true)
    else let '(before, after, found) := Cut s "," in
         (String c before, after, found).
Proof.
  rewrite (Ascii.eqb_sym c).
  cbn -[Ascii.eqb]. destruct (Ascii.eqb "," c); reflexivity.
Qed.

Lemma Cut_first_comma (pre rest : string) :
  no_comma pre = true ->
  Cut (pre +:+ "," +:+ rest) "," = (pre, rest, true).
Proof.
  induction pre as [|c pre IH]; intros Hpre.
  - reflexivity.
  - cbn -[Ascii.eqb] in Hpre. apply andb_prop in Hpre as [Hc Hpre].
    apply negb_true_iff in Hc.
    change (String c pre +:+ "," +:+ rest)
      with (String c (pre +:+ "," +:+ rest)).
    rewrite Cut_cons, Hc, (IH Hpre). reflexivity.
Qed.

Lemma Cut_without_comma (s : string) :
  no_comma s = true -> Cut s "," = (s, EmptyString, false).
Proof.
  induction s as [|c s IH]; intros Hs.
  - reflexivity.
  - cbn -[Ascii.eqb] in Hs. apply andb_prop in Hs as [Hc Hs].
    apply negb_true_iff in Hc.
    rewrite Cut_cons, Hc, (IH Hs). reflexivity.
Qed.

Lemma afterComma_first_comma (pre rest : string) :
  no_comma pre = true -> afterComma (pre +:+ "," +:+ rest) = rest.
Proof. intros H. unfold afterComma. now rewrite Cut_first_comma. Qed.

Lemma afterComma_without_comma (s : string) :
  no_comma s = true -> afterComma s = s.
Proof. intros H. unfold afterComma. now rewrite Cut_without_comma. Qed.

(** C10.  The decode helper cuts its input at the first comma, whatever
    stands before it: a text [pre] without comma is decoded as it is, and
    from [pre , rest] only [rest] reaches the decoder (and the error
    report), so a payload with a comma anywhere loses what precedes the
    first one. *)
Theorem decodeBase64Image_first_comma (pre rest : string) :
  no_comma pre = true ->
  decodeBase64Image (pre +:+ "," +:+ rest) = decodeAsIs rest
  /\ decodeBase64Image pre = decodeAsIs pre.
Proof.
  intros Hpre. unfold decodeBase64Image, decodeAsIs.
  rewrite (afterComma_first_comma _ _ Hpre), (afterComma_without_comma _ Hpre).
  split; reflexivity.
Qed.

(** The discarded prefix need not be a data-URI header: here it is a
    well-formed base64 text of its own. *)
Lemma decodeBase64Image_first_comma_witness :
  decodeBase64Image ("QUJD" +:+ "," +:+ "aGk=") = Done (Ok ["h"; "i"]%byte)
  /\ decodeBase64Image "QUJD" = Done (Ok ["A"; "B"; "C"]%byte).
Proof.
  exact (decodeBase64Image_first_comma "QUJD" "aGk=" eq_refl).
Defined.

(** With the usual header in front, the helper hands only the payload to
    the decoder. *)
Lemma decodeBase64Image_data_uri (payload : string) :
  decodeBase64Image ("data:image/jpeg;base64," +:+ payload) = decodeAsIs payload.
Proof.
  change ("data:image/jpeg;base64," +:+ payload)
    with ("data:image/jpeg;base64" +:+ "," +:+ payload).
  unfold decodeBase64Image.
  now rewrite (afterComma_first_comma "data:image/jpeg;base64" payload eq_refl).
Qed.

(** The plain decoder rejects a text that starts with the header: its
    fifth character, the colon, is outside the alphabet. *)
Lemma DecodeString_data_uri (payload : string) :
  Base64.DecodeString ("data:image/jpeg;base64," +:+ payload) = Err CorruptInputError.
Proof. reflexivity. Qed.

(** C8.  Collage and try-on call the plain decoder, not the helper, so a
    data-URI header is not stripped there: an avatar image carrying the
    header makes the try-on fail, and a garment image carrying it is
    dropped (a collage of only such images has no valid image), all
    without a provider call. *)
Theorem collage_and_tryon_keep_data_uri_prefix
    (env : Env) (s : GeminiService) (payload : string)
    (items : list string) (w : World) :
  VirtualTryOn env s ("data:image/jpeg;base64," +:+ payload) items w
    = (Done (Err (Wrapf "failed to decode avatar" CorruptInputError)), w)
  /\ decodeItems (("data:image/jpeg;base64," +:+ payload) :: items) = decodeItems items
  /\ GenerateCollage env s ["data:image/jpeg;base64," +:+ payload] w
       = (Done (Err (Errorf "no valid images provided")), w).
Proof.
  split; [|split].
  - unfold VirtualTryOn. rewrite DecodeString_data_uri. reflexivity.
  - cbn [decodeItems]. rewrite DecodeString_data_uri. reflexivity.
  - unfold GenerateCollage. cbn [decodeItems].
    rewrite DecodeString_data_uri. reflexivity.
Qed.

(** The same payload, with and without the header, on the three paths. *)
Example data_uri_per_path :
  decodeBase64Image "data:image/jpeg;base64,aGk=" = Done (Ok ["h"; "i"]%byte)
  /\ decodeBase64Image "aGk=" = Done (Ok ["h"; "i"]%byte)
  /\ fst (VirtualTryOn env_up the_service "aGk=" [] fresh_world)
       = Done (Ok "aGk=")
  /\ fst (VirtualTryOn env_up the_service "data:image/jpeg;base64,aGk=" [] fresh_world)
       = Done (Err (Wrapf "failed to decode avatar" CorruptInputError))
  /\ fst (GenerateCollage env_up the_service ["aGk="] fresh_world)
       = Done (Ok "aGk=")
  /\ fst (GenerateCollage env_up the_service ["data:image/jpeg;base64,aGk="] fresh_world)
       = Done (Err (Errorf "no valid images provided")).
Proof. repeat apply conj; vm_compute; reflexivity. Qed.

(* ===================================================================== *)
(** ** Reading the provider's answer                                      *)
(* ===================================================================== *)

(** On the image paths an answer without candidate, or whose first
    candidate has no binary part, is an error value. *)
Lemma extractImageFromResponse_no_candidate :
  extractImageFromResponse (Some {| Candidates := [] |})
    = Err (Errorf "no response from AI").
Proof. reflexivity. Qed.

Lemma extractImageFromResponse_no_blob (c : Candidate) (cs : list Candidate) :
  firstBlob (Parts (CandidateContent c)) = None ->
  extractImageFromResponse (Some {| Candidates := c :: cs |})
    = Err (Errorf "no image generated").
Proof. intros H. unfold extractImageFromResponse. cbn. now rewrite H. Qed.

(** Plain analysis checks for an empty answer before it reads it. *)
Lemma AnalyzeClothing_no_candidate
    (env : Env) (s : GeminiService) (imageBase64 mimeType : string)
    (w : World) (data : list byte) :
  decodeBase64Image imageBase64 = Done (Ok data) ->
  GenerateContent env (List.length (provider_calls w)) (model s)
    [ImageData (TrimPrefix mimeType "image/") data; InText AnalyzePrompt]
    = Ok (Some {| Candidates := [] |}) ->
  fst (AnalyzeClothing env s imageBase64 mimeType w)
    = Done (Err (Errorf "no response from AI")).
Proof.
  intros Hdec Hcall. unfold AnalyzeClothing, bind, lift, callProvider.
  rewrite Hdec. cbn. rewrite Hcall. reflexivity.
Qed.

(** C7.  The refine-analysis path reads the first candidate of a
    successful answer without checking that there is one: on an answer
    with zero candidates it panics (index out of range) instead of
    returning an error, unlike plain analysis and the image paths. *)
Theorem RefineClothingAnalysis_no_candidate_panics
    (env : Env) (s : GeminiService) (imageBase64 userFeedback mimeType : string)
    (w : World) (data : list byte) :
  decodeBase64Image imageBase64 = Done (Ok data) ->
  GenerateContent env (List.length (provider_calls w)) (model s)
    [ImageData mimeType data; InText (RefineAnalysisPrompt userFeedback)]
    = Ok (Some {| Candidates := [] |}) ->
  fst (RefineClothingAnalysis env s imageBase64 userFeedback mimeType w)
    = Panicked index_out_of_range.
Proof.
  intros Hdec Hcall. unfold RefineClothingAnalysis, bind, lift, callProvider.
  rewrite Hdec. cbn. rewrite Hcall. reflexivity.
Qed.

Lemma RefineClothingAnalysis_no_candidate_panics_witness :
  fst (RefineClothingAnalysis env_empty the_service "aGk=" "it is blue" "image/jpeg"
         fresh_world)
    = Panicked index_out_of_range.
Proof.
  apply (RefineClothingAnalysis_no_candidate_panics env_empty the_service
           "aGk=" "it is blue" "image/jpeg" fresh_world ["h"; "i"]%byte);
    reflexivity.
Defined.

(** C6 as stated fails when the provider is down for the fallback too:
    the refine path then hands the caller the provider failure of the
    plain analysis. *)
Lemma refine_analysis_surfaces_fallback_failure :
  fst (RefineClothingAnalysis env_down the_service "aGk=" "it is blue" "image/jpeg"
         fresh_world)
    = Done (Err (Wrapf "failed to analyze image"
                   (ProviderError "context deadline exceeded"))).
Proof. vm_compute. reflexivity. Qed.

(** C6 (amended).  When the refine call to the provider fails, or its
    first candidate's text does not parse, refine-analysis returns
    exactly what a plain analysis of the same image returns when run next
    (a second provider call): the failure of the refine call is dropped,
    a failure of the fallback is returned. *)
Theorem RefineClothingAnalysis_falls_back
    (env : Env) (s : GeminiService) (imageBase64 userFeedback mimeType : string)
    (w : World) (data : list byte) :
  let parts := [ImageData mimeType data; InText (RefineAnalysisPrompt userFeedback)] in
  decodeBase64Image imageBase64 = Done (Ok data) ->
  refine_call_failed env
    (GenerateContent env (List.length (provider_calls w)) (model s) parts) = true ->
  RefineClothingAnalysis env s imageBase64 userFeedback mimeType w
    = AnalyzeClothing env s imageBase64 mimeType (called (model s) parts w).
Proof.
  intros parts Hdec Hfail.
  unfold RefineClothingAnalysis, bind at 1, lift. rewrite Hdec.
  unfold bind at 1, callProvider at 1. fold parts. fold (called (model s) parts w).
  destruct (GenerateContent env _ (model s) parts) as [[resp|]|e]; cbn in Hfail.
  - destruct (Candidates resp) as [|c cs]; [discriminate|].
    destruct (json_Unmarshal env _); [discriminate|reflexivity].
  - discriminate.
  - reflexivity.
Qed.

Lemma RefineClothingAnalysis_falls_back_witness :
  RefineClothingAnalysis env_down the_service "aGk=" "it is blue" "image/jpeg" fresh_world
    = AnalyzeClothing env_down the_service "aGk=" "image/jpeg"
        (called (model the_service)
           [ImageData "image/jpeg" ["h"; "i"]%byte;
            InText (RefineAnalysisPrompt "it is blue")] fresh_world).
Proof.
  apply (RefineClothingAnalysis_falls_back env_down the_service
           "aGk=" "it is blue" "image/jpeg" fresh_world ["h"; "i"]%byte);
    reflexivity.
Defined.

(* ===================================================================== *)
(** ** The image cache                                                    *)
(* ===================================================================== *)

Lemma maxDuration_eq : maxDuration = 9223372036854775807.
Proof. reflexivity. Qed.

Lemma minDuration_eq : minDuration = -9223372036854775808.
Proof. reflexivity. Qed.

Lemma expiry_eq : expiry = 1800000000000.
Proof. reflexivity. Qed.

(** Saturation does not change the comparison with the retention window. *)
Lemma Sub_gt_expiry (t u : Z) : (Sub t u >? expiry) = (t - u >? expiry).
Proof.
  unfold Sub. rewrite maxDuration_eq, minDuration_eq, expiry_eq.
  destruct (Z.gtb_spec (t - u) 9223372036854775807);
    [|destruct (Z.ltb_spec (t - u) (-9223372036854775808))].
  - symmetry. apply Z.gtb_gt. lia.
  - rewrite !Z.gtb_ltb. symmetry. apply Z.ltb_ge. lia.
  - reflexivity.
Qed.

(** What the loop of [cleanup] leaves under a key, from any intermediate
    map [acc]: nothing if the key's entry in the swept map is too old,
    what [acc] had otherwise. *)
Lemma sweep_lookup (t : Z) (m acc : gmap string CacheEntry) (i : string) :
  map_fold (sweepEntry t) acc m !! i =
    match m !! i with
    | Some e => if t - CreatedAt e >? expiry then None else acc !! i
    | None => acc !! i
    end.
Proof.
  revert i.
  apply (map_fold_weak_ind
           (fun r m => forall i, r !! i =
              match m !! i with
              | Some e => if t - CreatedAt e >? expiry then None else acc !! i
              | None => acc !! i
              end)).
  - intros i. now rewrite lookup_empty.
  - intros j x m' r Hj IH i. unfold sweepEntry. rewrite Sub_gt_expiry.
    destruct (decide (i = j)) as [->|Hne].
    + rewrite lookup_insert_eq. specialize (IH j). rewrite Hj in IH.
      destruct (t - CreatedAt x >? expiry); [apply lookup_delete_eq|exact IH].
    + rewrite lookup_insert_ne by congruence.
      destruct (t - CreatedAt x >? expiry); [rewrite lookup_delete_ne by congruence|];
        apply IH.
Qed.

Lemma cleanup_lookup (w : World) (id : string) :
  entries (snd (cleanup w)) !! id =
    match entries w !! id with
    | Some e => if now w - CreatedAt e >? expiry then None else Some e
    | None => None
    end.
Proof.
  unfold cleanup. cbn. rewrite sweep_lookup.
  destruct (entries w !! id) as [e|] eqn:E; [|reflexivity].
  now destruct (now w - CreatedAt e >? expiry).
Qed.

(** C4.  A sweep never fails, leaves the clock alone, and keeps exactly
    the entries whose age at sweep time is at most 30 minutes: after it,
    [Get] finds nothing under an id whose entry was older, and finds the
    unchanged entry under every other id that had one. *)
Theorem cleanup_keeps_exactly_the_recent (w : World) (id : string) :
  fst (cleanup w) = Done tt
  /\ now (snd (cleanup w)) = now w
  /\ fst (Get id (snd (cleanup w))) =
       Done match entries w !! id with
            | Some e => if now w - CreatedAt e >? 30 * Minute then None else Some e
            | None => None
            end.
Proof.
  split; [reflexivity|]. split; [reflexivity|].
  unfold Get. cbn [fst]. f_equal. apply cleanup_lookup.
Qed.

(** The sweeper alone: it never fails, and after [n] ticks the clock has
    moved by [n] times five minutes. *)
Lemma cleanupLoop_S (n : nat) (w : World) :
  cleanupLoop (S n) w = cleanupLoop n (snd (cleanup (snd (sleep (5 * Minute) w)))).
Proof. reflexivity. Qed.

Lemma cleanupLoop_clock (n : nat) :
  forall w,
    fst (cleanupLoop n w) = Done tt
    /\ now (snd (cleanupLoop n w)) = now w + Z.of_nat n * (5 * Minute).
Proof.
  induction n as [|n IH]; intros w.
  - cbn. split; [reflexivity|lia].
  - rewrite cleanupLoop_S.
    destruct (IH (snd (cleanup (snd (sleep (5 * Minute) w))))) as [Hd Hn].
    split; [exact Hd|]. rewrite Hn. cbn [now cleanup sleep snd set_entries set_now].
    change (Z.max 0 (5 * Minute)) with (5 * Minute). lia.
Qed.

(** *** Schedules *)

Section Schedules.
Variable env : Env.

Lemma Store_spec (imageBase64 mimeType : string) (w : World) :
  Store env imageBase64 mimeType w =
    (Done (nextID env w),
     set_entries
       (<[nextID env w := {| OriginalImageBase64 := imageBase64;
                             MimeType := mimeType;
                             CreatedAt := now w |}]> (entries w))
       (set_rand_calls (S (rand_calls w)) w)).
Proof. reflexivity. Qed.

(** No cache operation panics. *)
Lemma step_done (ev : Event) (w : World) :
  exists r, step env ev w = (Done r, snd (step env ev w)).
Proof.
  destruct ev; cbn; unfold bind, Delete; cbn; eauto.
  destruct (entries w !! cacheID); cbn; eauto.
Qed.

Lemma run_snd_cons (ev : Event) (rest : list Event) (w : World) :
  snd (run env (ev :: rest) w) = snd (run env rest (snd (step env ev w))).
Proof.
  cbn [run]. unfold bind at 1.
  destruct (step_done ev w) as [r Hr]. rewrite Hr. cbn [snd].
  unfold bind. destruct (run env rest _) as [[rs|msg] w']; reflexivity.
Qed.

Lemma run_done (evs : list Event) (w : World) :
  exists rs, fst (run env evs w) = Done rs.
Proof.
  revert w. induction evs as [|ev rest IH]; intros w; [now exists []|].
  cbn [run]. unfold bind at 1.
  destruct (step_done ev w) as [r Hr]. rewrite Hr.
  unfold bind. destruct (IH (snd (step env ev w))) as [rs Hrs].
  destruct (run env rest _) as [[rs'|msg] w']; cbn in *; [eauto|discriminate].
Qed.

Lemma Delete_entries (cacheID : string) (w : World) :
  entries (snd (Delete cacheID w)) = delete cacheID (entries w).
Proof.
  unfold Delete. destruct (entries w !! cacheID) eqn:E; cbn; [reflexivity|].
  symmetry. now apply delete_id.
Qed.

Lemma step_entries (ev : Event) (w : World) (id : string) :
  entries (snd (step env ev w)) !! id =
    match ev with
    | EvStore imageBase64 mimeType =>
        if decide (nextID env w = id)
        then Some {| OriginalImageBase64 := imageBase64;
                     MimeType := mimeType;
                     CreatedAt := now w |}
        else entries w !! id
    | EvDelete cacheID =>
        if decide (cacheID = id) then None else entries w !! id
    | EvCleanup =>
        match entries w !! id with
        | Some e => if now w - CreatedAt e >? expiry then None else Some e
        | None => None
        end
    | EvGet _ | EvSleep _ => entries w !! id
    end.
Proof.
  destruct ev as [p m|c|c| |d].
  - cbn [step]. unfold bind at 1. rewrite Store_spec. cbn.
    apply lookup_insert.
  - reflexivity.
  - cbn [step]. unfold bind at 1.
    pose proof (Delete_entries c w) as Hd.
    destruct (Delete c w) as [[b|msg] w'] eqn:E; cbn in *.
    + rewrite Hd. apply lookup_delete.
    + unfold Delete in E. destruct (entries w !! c); discriminate.
  - cbn [step]. unfold bind at 1. cbn. apply (cleanup_lookup w id).
  - reflexivity.
Qed.

Lemma undisturbed_keeps (id : string) (e : CacheEntry) (evs : list Event) :
  forall w,
    entries w !! id = Some e ->
    undisturbed env id (CreatedAt e) evs w = true ->
    entries (snd (run env evs w)) !! id = Some e.
Proof.
  induction evs as [|ev rest IH]; intros w He Hu; [exact He|].
  rewrite run_snd_cons. cbn [undisturbed] in Hu.
  apply andb_prop in Hu as [Hev Hrest].
  apply IH; [|exact Hrest].
  rewrite step_entries. destruct ev as [p m|c|c| |d]; try exact He.
  - apply negb_true_iff, String.eqb_neq in Hev. now rewrite decide_False.
  - apply negb_true_iff, String.eqb_neq in Hev. now rewrite decide_False.
  - rewrite He. apply Z.leb_le in Hev.
    destruct (Z.gtb_spec (now w - CreatedAt e) expiry); [lia|reflexivity].
Qed.

Lemma not_restored_keeps_absent (id : string) (evs : list Event) :
  forall w,
    entries w !! id = None ->
    not_restored env id evs w = true ->
    entries (snd (run env evs w)) !! id = None.
Proof.
  induction evs as [|ev rest IH]; intros w He Hu; [exact He|].
  rewrite run_snd_cons. cbn [not_restored] in Hu.
  apply andb_prop in Hu as [Hev Hrest].
  apply IH; [|exact Hrest].
  rewrite step_entries. destruct ev as [p m|c|c| |d]; try exact He.
  - apply negb_true_iff, String.eqb_neq in Hev. now rewrite decide_False.
  - now destruct (decide (c = id)).
  - now rewrite He.
Qed.

End Schedules.

(** C3 as stated fails: an entry that is 31 minutes old is still returned
    by [Get] when no sweep has run since it turned 30 minutes. *)
Lemma entry_visible_past_thirty_minutes :
  let id := "00000000000000000000000000000000" in
  let w := snd (run env_up late_read fresh_world) in
  let e := {| OriginalImageBase64 := "aGk="; MimeType := "image/jpeg";
              CreatedAt := 1 * Minute |} in
  fst (run env_up late_read fresh_world)
    = Done [RNone; RStore id; RNone; RNone; RNone; RNone; RNone; RNone;
            RNone; RNone; RNone; RNone; RNone; RNone; RNone]
  /\ fst (Get id w) = Done (Some e)
  /\ now w - CreatedAt e = 31 * Minute.
Proof. vm_compute. repeat apply conj; reflexivity. Qed.

(** C3 (amended).  [Store] returns an id under which [Get] finds the
    payload and the media subtype unchanged (and the creation time) after
    every schedule that does not delete that id, in which no later
    [Store] draws the same id, and in which no sweep runs while the entry
    is older than 30 minutes: so throughout its first 30 minutes, and
    beyond them until the next sweep. *)
Theorem Store_Get_until_deleted_or_swept
    (env : Env) (imageBase64 mimeType : string) (w : World) (evs : list Event) :
  let id := nextID env w in
  let w1 := snd (Store env imageBase64 mimeType w) in
  undisturbed env id (now w) evs w1 = true ->
  fst (Store env imageBase64 mimeType w) = Done id
  /\ fst (Get id (snd (run env evs w1))) =
       Done (Some {| OriginalImageBase64 := imageBase64;
                     MimeType := mimeType;
                     CreatedAt := now w |}).
Proof.
  intros id w1 Hu. split; [reflexivity|].
  unfold Get. cbn [fst]. f_equal.
  apply (undisturbed_keeps env id _ evs w1); [|exact Hu].
  subst w1 id. rewrite Store_spec. cbn. apply lookup_insert_eq.
Qed.

Lemma Store_Get_until_deleted_or_swept_witness :
  fst (Store env_up "aGk=" "image/jpeg" fresh_world)
    = Done "00000000000000000000000000000000"
  /\ fst (Get "00000000000000000000000000000000"
            (snd (run env_up
                    [EvSleep (29 * Minute); EvCleanup; EvStore "QUJD" "image/png";
                     EvDelete "01010101010101010101010101010101";
                     EvSleep (5 * Minute)]
                    (snd (Store env_up "aGk=" "image/jpeg" fresh_world)))))
     = Done (Some {| OriginalImageBase64 := "aGk="; MimeType := "image/jpeg";
                     CreatedAt := 0 |}).
Proof.
  apply (Store_Get_until_deleted_or_swept env_up "aGk=" "image/jpeg" fresh_world
           [EvSleep (29 * Minute); EvCleanup; EvStore "QUJD" "image/png";
            EvDelete "01010101010101010101010101010101";
            EvSleep (5 * Minute)]).
  vm_compute. reflexivity.
Defined.

(** C5 as stated fails: when the sweep has removed the entry, the first
    [Delete] of a stored id returns false. *)
Lemma first_Delete_after_sweep_is_false :
  fst (run env_up
         [EvStore "aGk=" "image/jpeg"; EvSleep (31 * Minute); EvCleanup;
          EvDelete "00000000000000000000000000000000"]
         fresh_world)
    = Done [RStore "00000000000000000000000000000000"; RNone; RNone;
            RDelete false].
Proof. vm_compute. reflexivity. Qed.

(** C5 (amended).  For the id returned by [Store], the first [Delete]
    that comes before any sweep has removed the entry returns true; after
    it, whatever else happens short of a [Store] drawing the same id
    again, [Delete] returns false and changes nothing, and [Get] finds
    nothing.  [Delete] of any id that is not in the cache returns false
    and leaves the state as it is. *)
Theorem Delete_true_once
    (env : Env) (imageBase64 mimeType : string) (w : World)
    (before after : list Event) (w' : World) (id' : string) :
  let id := nextID env w in
  let w1 := snd (Store env imageBase64 mimeType w) in
  let w2 := snd (run env before w1) in
  let w3 := snd (Delete id w2) in
  let w4 := snd (run env after w3) in
  undisturbed env id (now w) before w1 = true ->
  not_restored env id after w3 = true ->
  entries w' !! id' = None ->
  fst (Store env imageBase64 mimeType w) = Done id
  /\ fst (Delete id w2) = Done true
  /\ Delete id w4 = (Done false, w4)
  /\ fst (Get id w4) = Done None
  /\ Delete id' w' = (Done false, w').
Proof.
  intros id w1 w2 w3 w4 Hbefore Hafter Habsent.
  assert (Hlive : entries w2 !! id =
                    Some {| OriginalImageBase64 := imageBase64;
                            MimeType := mimeType; CreatedAt := now w |}).
  { apply (undisturbed_keeps env id _ before w1); [|exact Hbefore].
    subst w1 id. rewrite Store_spec. cbn. apply lookup_insert_eq. }
  assert (Hgone : entries w4 !! id = None).
  { apply (not_restored_keeps_absent env id after w3); [|exact Hafter].
    subst w3. rewrite Delete_entries. apply lookup_delete_eq. }
  split; [reflexivity|]. split; [|split; [|split]].
  - unfold Delete. now rewrite Hlive.
  - unfold Delete. now rewrite Hgone.
  - unfold Get. cbn [fst]. now rewrite Hgone.
  - unfold Delete. now rewrite Habsent.
Qed.

Lemma Delete_true_once_witness :
  let id := "00000000000000000000000000000000" in
  let w1 := snd (Store env_up "aGk=" "image/jpeg" fresh_world) in
  let w2 := snd (run env_up [EvSleep (10 * Minute); EvCleanup; EvGet id] w1) in
  let w3 := snd (Delete id w2) in
  let w4 := snd (run env_up [EvDelete id; EvSleep (40 * Minute); EvCleanup;
                             EvStore "QUJD" "image/png"] w3) in
  fst (Store env_up "aGk=" "image/jpeg" fresh_world) = Done id
  /\ fst (Delete id w2) = Done true
  /\ Delete id w4 = (Done false, w4)
  /\ fst (Get id w4) = Done None
  /\ Delete "ffffffffffffffffffffffffffffffff" fresh_world = (Done false, fresh_world).
Proof.
  apply (Delete_true_once env_up "aGk=" "image/jpeg" fresh_world
           [EvSleep (10 * Minute); EvCleanup;
            EvGet "00000000000000000000000000000000"]
           [EvDelete "00000000000000000000000000000000";
            EvSleep (40 * Minute); EvCleanup; EvStore "QUJD" "image/png"]
           fresh_world "ffffffffffffffffffffffffffffffff");
    vm_compute; reflexivity.
Defined.

(* ===================================================================== *)
(** ** The generate / refine / clear protocol                             *)
(* ===================================================================== *)

Import Handlers.

(** The clear handler answers 200 with whether something was removed,
    whether or not the session still exists. *)
Lemma ClearImageCache_spec (env : Env) (h : AIHandler) (cacheID : string)
    (w : World) :
  ClearImageCache h (Ok {| ClearCacheRequest.CacheID := cacheID |}) w =
    (Done {| Status := StatusOK;
             Body := {[ "success" := JBool (bool_decide (is_Some (entries w !! cacheID)));
                        "message" := JString "Cache cleared" ]} |},
     set_entries (delete cacheID (entries w)) w).
Proof.
  unfold ClearImageCache, bind, Delete. cbn.
  destruct (entries w !! cacheID) as [e|] eqn:E; cbn.
  - reflexivity.
  - rewrite delete_id by exact E. now destruct w.
Qed.

(** The handler, once the request is bound and the service configured:
    store, call the service, and on its error delete what was stored. *)
Lemma GenerateCutout_configured
    (env : Env) (h : AIHandler) (g : GeminiService)
    (req : GenerateCutoutRequest.t) (w : World) :
  let imageBase64 := GenerateCutoutRequest.ImageBase64 req in
  let mimeType := GenerateCutoutRequest.MimeType req in
  gemini h = Some g ->
  GenerateCutout env h (Ok req) w =
    match Services.GenerateCutout env g imageBase64 mimeType
            (snd (Store env imageBase64 mimeType w)) with
    | (Done (Err err), w2) =>
        (Done {| Status := StatusInternalServerError; Body := errorBody err |},
         set_entries (delete (nextID env w) (entries w2)) w2)
    | (Done (Ok image), w2) =>
        (Done {| Status := StatusOK;
                 Body := {[ "imageBase64" := JString image;
                            "cacheId" := JString (nextID env w);
                            "message" := JString "Cutout generated successfully" ]} |},
         w2)
    | (Panicked msg, w2) => (Panicked msg, w2)
    end.
Proof.
  intros imageBase64 mimeType Hg.
  unfold GenerateCutout. fold imageBase64 mimeType.
  unfold bind at 1. rewrite Store_spec. cbn [snd]. rewrite Hg.
  unfold bind at 1.
  destruct (Services.GenerateCutout env g imageBase64 mimeType _)
    as [[[image|err]|msg] w2]; try reflexivity.
  unfold bind, Delete, ret.
  destruct (entries w2 !! nextID env w) eqn:E; [reflexivity|].
  rewrite delete_id by exact E. now destruct w2.
Qed.

(** The cutout service when the image decodes and the provider call
    fails. *)
Lemma Services_GenerateCutout_provider_error
    (env : Env) (g : GeminiService) (imageBase64 mimeType : string)
    (w : World) (data : list byte) (e : error) :
  let parts := [ImageData (TrimPrefix mimeType "image/") data; InText CutoutPrompt] in
  decodeBase64Image imageBase64 = Done (Ok data) ->
  GenerateContent env (List.length (provider_calls w)) (imageModel g) parts = Err e ->
  Services.GenerateCutout env g imageBase64 mimeType w =
    (Done (Err (Wrapf "failed to generate cutout" e)), called (imageModel g) parts w).
Proof.
  intros parts Hdec Hcall.
  unfold Services.GenerateCutout, bind, lift, callProvider.
  rewrite Hdec. fold parts. rewrite Hcall. reflexivity.
Qed.

(** A service that cannot decode its image returns before it calls the
    provider, the state untouched. *)
Lemma decodeBase64Image_malformed (imageBase64 : string) (e : error) :
  Base64.DecodeString (afterComma imageBase64) = Err e ->
  (30 <= String.length (afterComma imageBase64))%nat ->
  decodeBase64Image imageBase64 =
    Done (Err (Wrapf "failed to decode base64 image" e)).
Proof.
  intros He Hlen. unfold decodeBase64Image. rewrite He.
  destruct (Nat.ltb_spec (String.length (afterComma imageBase64)) 30); [lia|reflexivity].
Qed.

(** C1.  In a generate-cutout request that got as far as the provider
    call (service configured, image decodable), a failed call (its error
    or its deadline) makes the handler delete the entry it has just
    stored and answer 500 with only an error text: the minted id is
    absent from the cache afterwards, and no cache id is sent. *)
Theorem GenerateCutout_rolls_back
    (env : Env) (h : AIHandler) (g : GeminiService)
    (req : GenerateCutoutRequest.t) (w : World) (data : list byte) (e : error) :
  let imageBase64 := GenerateCutoutRequest.ImageBase64 req in
  let mimeType := GenerateCutoutRequest.MimeType req in
  let id := nextID env w in
  let answer := GenerateCutout env h (Ok req) w in
  gemini h = Some g ->
  decodeBase64Image imageBase64 = Done (Ok data) ->
  GenerateContent env (List.length (provider_calls w)) (imageModel g)
    [ImageData (TrimPrefix mimeType "image/") data; InText CutoutPrompt] = Err e ->
  fst (Store env imageBase64 mimeType w) = Done id
  /\ fst answer =
       Done {| Status := StatusInternalServerError;
               Body := {[ "error" :=
                            JString (Error (Wrapf "failed to generate cutout" e)) ]} |}
  /\ fst (Get id (snd answer)) = Done None
  /\ entries (snd answer) = delete id (entries w).
Proof.
  intros imageBase64 mimeType id answer Hg Hdec Hcall.
  split; [reflexivity|].
  subst answer. rewrite (GenerateCutout_configured env h g req w Hg).
  fold imageBase64 mimeType.
  rewrite (Services_GenerateCutout_provider_error env g imageBase64 mimeType
             (snd (Store env imageBase64 mimeType w)) data e Hdec Hcall).
  rewrite Store_spec. cbn. fold id.
  split; [reflexivity|]. split.
  - now rewrite lookup_delete_eq.
  - apply map_eq. intros i. destruct (decide (i = id)) as [->|Hne].
    + now rewrite !lookup_delete_eq.
    + now rewrite !lookup_delete_ne, lookup_insert_ne by congruence.
Qed.

Lemma GenerateCutout_rolls_back_witness :
  let req := {| GenerateCutoutRequest.ImageBase64 := "data:image/jpeg;base64,aGk=";
                GenerateCutoutRequest.MimeType := "image/jpeg" |} in
  let answer := GenerateCutout env_down {| gemini := Some the_service |} (Ok req)
                  fresh_world in
  fst (Store env_down "data:image/jpeg;base64,aGk=" "image/jpeg" fresh_world)
    = Done "00000000000000000000000000000000"
  /\ fst answer =
       Done {| Status := 500;
               Body := {[ "error" :=
                            JString "failed to generate cutout: context deadline exceeded" ]} |}
  /\ fst (Get "00000000000000000000000000000000" (snd answer)) = Done None
  /\ entries (snd answer) = delete "00000000000000000000000000000000" ∅.
Proof.
  apply (GenerateCutout_rolls_back env_down {| gemini := Some the_service |}
           the_service
           {| GenerateCutoutRequest.ImageBase64 := "data:image/jpeg;base64,aGk=";
              GenerateCutoutRequest.MimeType := "image/jpeg" |}
           fresh_world ["h"; "i"]%byte
           (ProviderError "context deadline exceeded"));
    reflexivity.
Defined.

(** C2.  A refine-cutout request whose cache id is not in the cache is
    answered at once with 400 and the text telling the caller to
    regenerate, the state untouched (no provider call, no change to the
    cache).  When the id is in the cache and the refine service returns
    an image, the answer is 200 with that image and the cache id that was
    sent. *)
Theorem RefineCutout_session
    (env : Env) (h : AIHandler) (req : RefineCutoutRequest.t) (w : World) :
  let cacheID := RefineCutoutRequest.CacheID req in
  (entries w !! cacheID = None ->
   RefineCutout env h (Ok req) w =
     (Done {| Status := StatusBadRequest;
              Body := {[ "error" := JString session_expired ]} |}, w))
  /\ (forall (g : GeminiService) (entry : CacheEntry) (image : string) (w' : World),
        gemini h = Some g ->
        entries w !! cacheID = Some entry ->
        Services.RefineCutout env g (OriginalImageBase64 entry)
          (RefineCutoutRequest.CurrentCutoutBase64 req)
          (RefineCutoutRequest.UserFeedback req)
          (RefineCutoutRequest.MimeType req) w = (Done (Ok image), w') ->
        RefineCutout env h (Ok req) w =
          (Done {| Status := StatusOK;
                   Body := {[ "imageBase64" := JString image;
                              "cacheId" := JString cacheID;
                              "message" := JString "Cutout refined successfully" ]} |},
           w')).
Proof.
  intros cacheID. split.
  - intros Habsent. unfold RefineCutout, bind, Get. fold cacheID.
    now rewrite Habsent.
  - intros g entry image w' Hg Hentry Hsvc.
    unfold RefineCutout, bind at 1, Get. fold cacheID.
    rewrite Hentry, Hg. unfold bind. now rewrite Hsvc.
Qed.

Lemma RefineCutout_session_witness :
  let id := "00000000000000000000000000000000" in
  let req := {| RefineCutoutRequest.CacheID := id;
                RefineCutoutRequest.CurrentCutoutBase64 := "QUJD";
                RefineCutoutRequest.UserFeedback := "make it brighter";
                RefineCutoutRequest.MimeType := "image/jpeg" |} in
  let h := {| gemini := Some the_service |} in
  let w := snd (Store env_up "aGk=" "image/jpeg" fresh_world) in
  fst (RefineCutout env_up h (Ok req) fresh_world) =
    Done {| Status := 400; Body := {[ "error" := JString session_expired ]} |}
  /\ snd (RefineCutout env_up h (Ok req) fresh_world) = fresh_world
  /\ fst (RefineCutout env_up h (Ok req) w) =
       Done {| Status := 200;
               Body := {[ "imageBase64" := JString "aGk=";
                          "cacheId" := JString id;
                          "message" := JString "Cutout refined successfully" ]} |}.
Proof.
  intros id req h w.
  pose proof (proj1 (RefineCutout_session env_up h req fresh_world) eq_refl) as Ha.
  pose proof (proj2 (RefineCutout_session env_up h req w) the_service
                {| OriginalImageBase64 := "aGk="; MimeType := "image/jpeg";
                   CreatedAt := 0 |}
                "aGk=" _ eq_refl eq_refl eq_refl) as Hb.
  rewrite Ha, Hb. repeat apply conj; reflexivity.
Defined.

(** *** Malformed images *)

(** C9 as stated fails: the image is stored before the service tries to
    decode it, and the decoding error is answered with 500, not with a
    client error; without a configured service the undecodable image
    stays in the cache and the answer is 200. *)
Lemma malformed_image_is_staged_and_answered_500 :
  let id := "00000000000000000000000000000000" in
  let configured :=
    GenerateCutout env_up {| gemini := Some the_service |} (Ok malformed_request)
      fresh_world in
  let unconfigured :=
    GenerateCutout env_up {| gemini := None |} (Ok malformed_request) fresh_world in
  fst configured =
    Done {| Status := 500;
            Body := {[ "error" :=
                         JString "failed to decode base64 image: illegal base64 data" ]} |}
  /\ entries (snd (Store env_up malformed_image "image/jpeg" fresh_world)) !! id
       = Some {| OriginalImageBase64 := malformed_image; MimeType := "image/jpeg";
                 CreatedAt := 0 |}
  /\ fst unconfigured =
       Done {| Status := 200;
               Body := {[ "message" := JString "Cutout generation - Gemini not configured";
                          "imageUrl" := JString "https://picsum.photos/400/600";
                          "cacheId" := JString id ]} |}
  /\ entries (snd unconfigured) !! id
       = Some {| OriginalImageBase64 := malformed_image; MimeType := "image/jpeg";
                 CreatedAt := 0 |}.
Proof. vm_compute. repeat apply conj; reflexivity. Qed.

(** A malformed image of fewer than 30 bytes never gets as far as the
    error value: the log line of the decoder panics, and the handler is
    left before it deletes what it stored. *)
Example short_malformed_image_panics :
  let answer :=
    GenerateCutout env_up {| gemini := Some the_service |}
      (Ok {| GenerateCutoutRequest.ImageBase64 := "!!!!";
             GenerateCutoutRequest.MimeType := "image/jpeg" |})
      fresh_world in
  fst answer = Panicked slice_out_of_range
  /\ entries (snd answer) !! "00000000000000000000000000000000"
       = Some {| OriginalImageBase64 := "!!!!"; MimeType := "image/jpeg";
                 CreatedAt := 0 |}.
Proof. vm_compute. split; reflexivity. Qed.

Section Malformed.
Variables (env : Env) (g : GeminiService) (imageBase64 mimeType : string).
Variable e : error.
Hypothesis Hdecode : Base64.DecodeString (afterComma imageBase64) = Err e.
Hypothesis Hlength : (30 <= String.length (afterComma imageBase64))%nat.

(** Every service starts by decoding; on the error it returns at once. *)
Ltac stops_at_decoding :=
  unfold bind, lift;
  rewrite (decodeBase64Image_malformed _ _ Hdecode Hlength);
  reflexivity.

Lemma AnalyzeClothing_malformed (w : World) :
  AnalyzeClothing env g imageBase64 mimeType w
    = (Done (Err (Wrapf "failed to decode base64 image" e)), w).
Proof. unfold AnalyzeClothing. stops_at_decoding. Qed.

Lemma RefineClothingAnalysis_malformed (userFeedback : string) (w : World) :
  RefineClothingAnalysis env g imageBase64 userFeedback mimeType w
    = (Done (Err (Wrapf "failed to decode base64 image" e)), w).
Proof. unfold RefineClothingAnalysis. stops_at_decoding. Qed.

Lemma Services_GenerateCutout_malformed (w : World) :
  Services.GenerateCutout env g imageBase64 mimeType w
    = (Done (Err (Wrapf "failed to decode base64 image" e)), w).
Proof. unfold Services.GenerateCutout. stops_at_decoding. Qed.

Lemma GenerateAvatar_malformed (metrics : AvatarMetrics) (w : World) :
  GenerateAvatar env g imageBase64 mimeType metrics w
    = (Done (Err (Wrapf "failed to decode base64 image" e)), w).
Proof. unfold GenerateAvatar. stops_at_decoding. Qed.

End Malformed.

(** C9 (amended).  When the image of a request, cut at its first comma,
    is malformed base64 of at least 30 bytes, the analysis, refine-
    analysis, cutout and avatar services return the decoding error
    without calling the provider and without touching the state.  The
    generate-cutout handler, which has stored the image before, deletes
    that entry again and answers 500 with the error text: the provider
    is not reached, and the cache is as before whenever the minted id was
    not in use. *)
Theorem malformed_image_aborts_before_provider
    (env : Env) (h : AIHandler) (g : GeminiService)
    (req : GenerateCutoutRequest.t) (userFeedback : string)
    (metrics : AvatarMetrics) (w : World) (e : error) :
  let imageBase64 := GenerateCutoutRequest.ImageBase64 req in
  let mimeType := GenerateCutoutRequest.MimeType req in
  let derr := Wrapf "failed to decode base64 image" e in
  let id := nextID env w in
  let answer := GenerateCutout env h (Ok req) w in
  gemini h = Some g ->
  Base64.DecodeString (afterComma imageBase64) = Err e ->
  (30 <= String.length (afterComma imageBase64))%nat ->
  AnalyzeClothing env g imageBase64 mimeType w = (Done (Err derr), w)
  /\ RefineClothingAnalysis env g imageBase64 userFeedback mimeType w
       = (Done (Err derr), w)
  /\ Services.GenerateCutout env g imageBase64 mimeType w = (Done (Err derr), w)
  /\ GenerateAvatar env g imageBase64 mimeType metrics w = (Done (Err derr), w)
  /\ fst answer =
       Done {| Status := StatusInternalServerError;
               Body := {[ "error" := JString (Error derr) ]} |}
  /\ provider_calls (snd answer) = provider_calls w
  /\ entries (snd answer) = delete id (entries w)
  /\ (entries w !! id = None -> entries (snd answer) = entries w).
Proof.
  intros imageBase64 mimeType derr id answer Hg Hdec Hlen.
  assert (Hanswer : answer =
    (Done {| Status := StatusInternalServerError; Body := errorBody derr |},
     set_entries (delete id (entries (snd (Store env imageBase64 mimeType w))))
       (snd (Store env imageBase64 mimeType w)))).
  { subst answer. rewrite (GenerateCutout_configured env h g req w Hg).
    fold imageBase64 mimeType.
    now rewrite (Services_GenerateCutout_malformed env g imageBase64 mimeType e
                   Hdec Hlen). }
  assert (Hentries : entries (snd answer) = delete id (entries w)).
  { rewrite Hanswer, Store_spec. cbn. fold id. apply delete_insert_eq. }
  split; [now apply AnalyzeClothing_malformed|].
  split; [now apply RefineClothingAnalysis_malformed|].
  split; [now apply Services_GenerateCutout_malformed|].
  split; [now apply GenerateAvatar_malformed|].
  split; [now rewrite Hanswer|].
  split; [now rewrite Hanswer|].
  split; [exact Hentries|].
  intros Hfresh. rewrite Hentries. now apply delete_id.
Qed.

Lemma malformed_image_aborts_before_provider_witness :
  let answer :=
    GenerateCutout env_up {| gemini := Some the_service |} (Ok malformed_request)
      fresh_world in
  fst answer =
    Done {| Status := 500;
            Body := {[ "error" :=
                         JString "failed to decode base64 image: illegal base64 data" ]} |}
  /\ provider_calls (snd answer) = []
  /\ entries (snd answer) = ∅.
Proof.
  pose proof (malformed_image_aborts_before_provider env_up
                {| gemini := Some the_service |} the_service malformed_request
                "it is blue"
                {| Gender := "f"; Height := "170"; Weight := "60"; Bust := "";
                   Waist := ""; Hips := ""; Thigh := ""; Calf := "";
                   Features := "" |}
                fresh_world CorruptInputError eq_refl eq_refl) as H.
  cbv zeta in H.
  destruct H as (_ & _ & _ & _ & Hstatus & Hcalls & _ & Hentries).
  - vm_compute. lia.
  - intros answer. split; [exact Hstatus|]. split; [exact Hcalls|].
    apply Hentries. reflexivity.
Defined.


(* ===================================================================== *)
(** ** Further properties: encodings                                      *)
(* ===================================================================== *)

Ltac divlia := zify; Z.to_euclidean_division_equations; lia.

Lemma below_bound (b : nat) (f : N -> bool) :
  forallb f (List.map N.of_nat (seq 0 b)) = true ->
  forall j, (j < N.of_nat b)%N -> f j = true.
Proof.
  intros H j Hj. rewrite List.forallb_forall in H. apply H.
  apply List.in_map_iff. exists (N.to_nat j). split; [lia|].
  apply List.in_seq. lia.
Qed.

Lemma encodeStd_mod (k : N) : Base64.encodeStd (k mod 64) = Base64.encodeStd k.
Proof. unfold Base64.encodeStd. now rewrite N.Div0.mod_mod. Qed.

(** The alphabet is read back as it was written. *)
Lemma decodeMap_encodeStd (k : N) :
  Base64.decodeMap (Base64.encodeStd k) = Some (k mod 64)%N.
Proof.
  rewrite <- encodeStd_mod.
  assert (Hj : (k mod 64 < 64)%N) by (apply N.mod_lt; discriminate).
  pose proof (below_bound 64
    (fun j => match Base64.decodeMap (Base64.encodeStd j) with
              | Some v => (v =? j)%N
              | None => false
              end) eq_refl _ Hj) as H.
  cbv beta in H. destruct (Base64.decodeMap _) as [v|]; [|discriminate].
  apply N.eqb_eq in H. now subst.
Qed.

(** No character of the alphabet is a line break or a comma. *)
Lemma encodeStd_plain (k : N) :
  Base64.isNewline (Base64.encodeStd k) = false
  /\ Ascii.eqb (Base64.encodeStd k) ","%char = false.
Proof.
  rewrite <- encodeStd_mod.
  assert (Hj : (k mod 64 < 64)%N) by (apply N.mod_lt; discriminate).
  pose proof (below_bound 64
    (fun j => negb (Base64.isNewline (Base64.encodeStd j))
              && negb (Ascii.eqb (Base64.encodeStd j) ","%char))
    eq_refl _ Hj) as H.
  cbv beta in H. apply andb_prop in H as [H1 H2].
  now apply negb_true_iff in H1, H2.
Qed.

Lemma byte_of_N_to_N (n : N) (x : byte) :
  (n mod 256 = Byte.to_N x)%N -> Base64.byte_of_N n = x.
Proof. intros H. unfold Base64.byte_of_N. now rewrite H, Byte.of_to_N. Qed.

Lemma decodeQuanta_encodeBytes (n : nat) :
  forall l : list byte,
    (List.length l <= n)%nat ->
    Base64.decodeQuanta (Base64.encodeBytes l) = Some l.
Proof.
  induction n as [|n IH]; intros l Hl.
  - destruct l; [reflexivity|cbn in Hl; lia].
  - destruct l as [|x [|y [|z rest]]].
    + reflexivity.
    + pose proof (Byte.to_N_bounded x).
      cbn [Base64.encodeBytes Base64.decodeQuanta].
      rewrite !decodeMap_encodeStd.
      change (Base64.decodeMap "="%char) with (@None N).
      change (Base64.isPad "="%char) with true. cbn [andb].
      do 2 f_equal. apply byte_of_N_to_N. divlia.
    + pose proof (Byte.to_N_bounded x). pose proof (Byte.to_N_bounded y).
      cbn [Base64.encodeBytes Base64.decodeQuanta].
      rewrite !decodeMap_encodeStd.
      change (Base64.decodeMap "="%char) with (@None N).
      change (Base64.isPad "="%char) with true.
      do 2 f_equal; [|f_equal]; apply byte_of_N_to_N; divlia.
    + pose proof (Byte.to_N_bounded x). pose proof (Byte.to_N_bounded y).
      pose proof (Byte.to_N_bounded z).
      cbn [Base64.encodeBytes Base64.decodeQuanta].
      rewrite !decodeMap_encodeStd.
      rewrite (IH rest) by (cbn in Hl; lia).
      do 2 f_equal; [|f_equal; [|f_equal]]; apply byte_of_N_to_N; divlia.
Qed.

Lemma encodeBytes_plain (n : nat) :
  forall l : list byte,
    (List.length l <= n)%nat ->
    List.Forall (fun c => Base64.isNewline c = false /\ Ascii.eqb c ","%char = false)
      (Base64.encodeBytes l).
Proof.
  induction n as [|n IH]; intros l Hl.
  - destruct l; [constructor|cbn in Hl; lia].
  - destruct l as [|x [|y [|z rest]]]; cbn [Base64.encodeBytes];
      repeat (apply List.Forall_cons; [first [apply encodeStd_plain | now split]|]);
      try apply List.Forall_nil.
    apply IH. cbn in Hl. lia.
Qed.

Lemma filter_plain (cs : list ascii) :
  List.Forall (fun c => Base64.isNewline c = false /\ Ascii.eqb c ","%char = false) cs ->
  List.filter (fun c => negb (Base64.isNewline c)) cs = cs
  /\ no_comma (string_of_list_ascii cs) = true.
Proof.
  induction 1 as [|c cs [Hn Hc] _ [IH1 IH2]]; [now split|].
  cbn -[Ascii.eqb]. rewrite Hn, Hc. cbn. now rewrite IH1, IH2.
Qed.

(** The standard encoding is read back by the standard decoder. *)
Lemma DecodeString_EncodeToString (data : list byte) :
  Base64.DecodeString (Base64.EncodeToString data) = Ok data.
Proof.
  unfold Base64.DecodeString, Base64.EncodeToString.
  rewrite list_ascii_of_string_of_list_ascii.
  destruct (filter_plain _ (encodeBytes_plain _ data (le_n _))) as [Hf _].
  rewrite Hf. now rewrite (decodeQuanta_encodeBytes _ data (le_n _)).
Qed.

Lemma EncodeToString_no_comma (data : list byte) :
  no_comma (Base64.EncodeToString data) = true.
Proof.
  exact (proj2 (filter_plain _ (encodeBytes_plain _ data (le_n _)))).
Qed.

(** X1.  Whatever image text [extractImageFromResponse] returns is the
    encoding of the first binary part of the first candidate, and it
    decodes back to those bytes on every input path: through the
    helper (never reaching its panicking log line), through the helper
    with a data-URI header put in front, and through the plain decoder
    of collage and try-on. *)
Theorem extracted_image_decodes
    (resp : option GenerateContentResponse) (image header : string) :
  extractImageFromResponse resp = Ok image ->
  no_comma header = true ->
  exists (r : GenerateContentResponse) (c : Candidate) (cs : list Candidate)
         (data : list byte),
    resp = Some r /\ Candidates r = c :: cs
    /\ firstBlob (Parts (CandidateContent c)) = Some data
    /\ image = Base64.EncodeToString data
    /\ decodeBase64Image image = Done (Ok data)
    /\ decodeBase64Image (header +:+ "," +:+ image) = Done (Ok data)
    /\ Base64.DecodeString image = Ok data.
Proof.
  intros Hx Hh. unfold extractImageFromResponse in Hx.
  destruct resp as [r|]; [|discriminate].
  destruct (Candidates r) as [|c cs] eqn:Hc; [discriminate|].
  destruct (firstBlob (Parts (CandidateContent c))) as [data|] eqn:Hb; [|discriminate].
  injection Hx as <-. exists r, c, cs, data.
  repeat (split; [reflexivity|]).
  pose proof (DecodeString_EncodeToString data) as Hd.
  unfold decodeBase64Image.
  rewrite (afterComma_without_comma _ (EncodeToString_no_comma data)).
  rewrite (afterComma_first_comma _ _ Hh). now rewrite Hd.
Qed.

Lemma extracted_image_decodes_witness :
  exists (r : GenerateContentResponse) (c : Candidate) (cs : list Candidate)
         (data : list byte),
    GenerateContent env_up 0 "gemini-3-pro-image-preview" [] = Ok (Some r)
    /\ Candidates r = c :: cs
    /\ firstBlob (Parts (CandidateContent c)) = Some data
    /\ "aGk=" = Base64.EncodeToString data
    /\ decodeBase64Image "aGk=" = Done (Ok data)
    /\ decodeBase64Image ("data:image/png;base64" +:+ "," +:+ "aGk=") = Done (Ok data)
    /\ Base64.DecodeString "aGk=" = Ok data.
Proof.
  destruct (extracted_image_decodes
              (Some {| Candidates :=
                         [ {| CandidateContent :=
                                {| Parts := [Text "done"; Blob "image/png" ["h"; "i"]%byte] |} |} ] |})
              "aGk=" "data:image/png;base64" eq_refl eq_refl)
    as (r & c & cs & data & Hr & H).
  injection Hr as <-. eexists _, c, cs, data. split; [reflexivity|exact H].
Defined.

(** *** Cache ids *)

Lemma N_of_ascii_digit (j : N) :
  (j < 16)%N ->
  N_of_ascii (Hex.digit j) = (if (j <? 10)%N then j + 48 else j + 87)%N.
Proof.
  intros Hj. unfold Hex.digit.
  destruct (N.ltb_spec j 10); apply N_ascii_embedding; lia.
Qed.

Lemma digit_isLowerHex (j : N) : (j < 16)%N -> isLowerHex (Hex.digit j) = true.
Proof.
  intros Hj. unfold isLowerHex. rewrite (N_of_ascii_digit j Hj).
  apply orb_true_iff.
  destruct (N.ltb_spec j 10); [left|right];
    apply andb_true_iff; split; apply N.leb_le; lia.
Qed.

Lemma digit_inj (j k : N) :
  (j < 16)%N -> (k < 16)%N -> Hex.digit j = Hex.digit k -> j = k.
Proof.
  intros Hj Hk H. apply (f_equal N_of_ascii) in H.
  rewrite (N_of_ascii_digit j Hj), (N_of_ascii_digit k Hk) in H.
  destruct (N.ltb_spec j 10), (N.ltb_spec k 10); lia.
Qed.

Lemma Hex_EncodeToString_length (l : list byte) :
  String.length (Hex.EncodeToString l) = (2 * List.length l)%nat.
Proof. induction l as [|b l IH]; [reflexivity|]. cbn. rewrite IH. lia. Qed.

Lemma Hex_EncodeToString_digits (l : list byte) :
  forallb isLowerHex (list_ascii_of_string (Hex.EncodeToString l)) = true.
Proof.
  induction l as [|b l IH]; [reflexivity|].
  pose proof (Byte.to_N_bounded b).
  cbn [Hex.EncodeToString list_ascii_of_string forallb].
  rewrite !digit_isLowerHex, IH by divlia. reflexivity.
Qed.

Lemma Hex_EncodeToString_inj (l1 l2 : list byte) :
  Hex.EncodeToString l1 = Hex.EncodeToString l2 -> l1 = l2.
Proof.
  revert l2. induction l1 as [|a l1 IH]; intros [|b l2] H;
    try reflexivity; try discriminate.
  cbn [Hex.EncodeToString] in H. injection H as Hhi Hlo Hrest.
  pose proof (Byte.to_N_bounded a). pose proof (Byte.to_N_bounded b).
  apply digit_inj in Hhi; [|divlia|divlia].
  apply digit_inj in Hlo; [|divlia|divlia].
  assert (Hab : Byte.to_N a = Byte.to_N b) by divlia.
  f_equal; [|now apply IH].
  apply (f_equal Byte.of_N) in Hab. rewrite !Byte.of_to_N in Hab. congruence.
Qed.

Lemma drawn_length (env : Env) (n : nat) : List.length (drawn env n) = 16%nat.
Proof.
  unfold drawn. rewrite length_take, length_app, length_replicate. lia.
Qed.

Lemma nextID_is_cache_id (env : Env) (w : World) :
  String.length (nextID env w) = 32%nat /\ is_cache_id (nextID env w) = true.
Proof.
  assert (Hlen : String.length (nextID env w) = 32%nat).
  { unfold nextID. fold (drawn env (rand_calls w)).
    rewrite Hex_EncodeToString_length, drawn_length. reflexivity. }
  split; [exact Hlen|]. unfold is_cache_id. rewrite Hlen. cbn [Nat.eqb andb].
  apply Hex_EncodeToString_digits.
Qed.

(** X2.  [generateCacheID] always returns 32 lower-case hexadecimal
    digits, whatever the random source delivers (too few bytes are made
    up with zeros, surplus bytes are not read). *)
Theorem generateCacheID_shape (env : Env) (w : World) :
  fst (generateCacheID env w) = Done (nextID env w)
  /\ String.length (nextID env w) = 32%nat
  /\ is_cache_id (nextID env w) = true.
Proof. split; [reflexivity|apply nextID_is_cache_id]. Qed.

(** X3.  Two calls of [Store] return the same id exactly when their
    draws of sixteen random bytes are the same: the id loses nothing of
    the draw. *)
Theorem Store_ids_collide_iff_draws_do
    (env : Env) (p1 m1 p2 m2 : string) (w1 w2 : World) :
  fst (Store env p1 m1 w1) = fst (Store env p2 m2 w2)
  <-> drawn env (rand_calls w1) = drawn env (rand_calls w2).
Proof.
  rewrite !Store_spec. cbn [fst]. unfold nextID.
  fold (drawn env (rand_calls w1)) (drawn env (rand_calls w2)).
  split.
  - intros H. injection H as H. now apply Hex_EncodeToString_inj.
  - now intros ->.
Qed.


(* ===================================================================== *)
(** ** Further properties: the cache                                      *)
(* ===================================================================== *)

(** X4.  [Count] follows [Store] and [Delete]: a [Store] adds one unless
    the id it drew was in use (then the older entry is replaced and the
    count stays); a [Delete] returns true exactly when the id was there,
    and then takes one off. *)
Theorem Count_follows_Store_and_Delete
    (env : Env) (imageBase64 mimeType cacheID : string) (w : World) :
  let n := Z.of_nat (size (entries w)) in
  fst (Count w) = Done n
  /\ fst (Count (snd (Store env imageBase64 mimeType w))) =
       Done (match entries w !! nextID env w with Some _ => n | None => n + 1 end)
  /\ fst (Delete cacheID w) =
       Done (match entries w !! cacheID with Some _ => true | None => false end)
  /\ fst (Count (snd (Delete cacheID w))) =
       Done (match entries w !! cacheID with Some _ => n - 1 | None => n end).
Proof.
  intros n. split; [reflexivity|]. split; [|split].
  - rewrite Store_spec. unfold Count. cbn [fst snd entries set_entries set_rand_calls].
    rewrite map_size_insert. subst n.
    destruct (entries w !! nextID env w); f_equal; lia.
  - unfold Delete. now destruct (entries w !! cacheID).
  - unfold Count. cbn [fst]. rewrite Delete_entries, map_size_delete. subst n.
    destruct (entries w !! cacheID) eqn:E; f_equal.
    assert (size (entries w) <> 0%nat); [|lia].
    apply map_size_non_empty_iff. intros Hm. rewrite Hm, lookup_empty in E.
    discriminate.
Qed.

Lemma cleanup_world (w : World) :
  snd (cleanup w) =
    set_entries (map_fold (sweepEntry (now w)) (entries w) (entries w)) w.
Proof. reflexivity. Qed.

Lemma cleanup_lookup_kept (w : World) (id : string) :
  entries (snd (cleanup w)) !! id = kept_at (now w) (entries w !! id).
Proof. apply cleanup_lookup. Qed.

Lemma kept_at_idem (t : Z) (entry : option CacheEntry) :
  kept_at t (kept_at t entry) = kept_at t entry.
Proof.
  destruct entry as [e|]; [|reflexivity]. cbn.
  destruct (t - CreatedAt e >? expiry) eqn:E; [reflexivity|]. cbn. now rewrite E.
Qed.

(** A later sweep makes an earlier one redundant. *)
Lemma kept_at_later (t t' : Z) (entry : option CacheEntry) :
  t <= t' -> kept_at t' (kept_at t entry) = kept_at t' entry.
Proof.
  intros Ht. destruct entry as [e|]; [|reflexivity]. cbn.
  destruct (Z.gtb_spec (t - CreatedAt e) expiry); [|reflexivity]. cbn.
  destruct (Z.gtb_spec (t' - CreatedAt e) expiry); [reflexivity|lia].
Qed.

(** X5.  A sweep only removes: what it leaves is part of what was there,
    so [Count] does not grow; and sweeping again at the same time changes
    nothing. *)
Theorem cleanup_shrinks_and_is_idempotent (w : World) :
  entries (snd (cleanup w)) ⊆ entries w
  /\ (size (entries (snd (cleanup w))) <= size (entries w))%nat
  /\ snd (cleanup (snd (cleanup w))) = snd (cleanup w).
Proof.
  assert (Hsub : entries (snd (cleanup w)) ⊆ entries w).
  { apply map_subseteq_spec. intros id e He.
    rewrite cleanup_lookup_kept in He.
    destruct (entries w !! id) as [e'|]; [|discriminate]. cbn in He.
    destruct (now w - CreatedAt e' >? expiry); [discriminate|exact He]. }
  split; [exact Hsub|]. split; [now apply map_subseteq_size|].
  assert (He : entries (snd (cleanup (snd (cleanup w)))) = entries (snd (cleanup w))).
  { apply map_eq. intros id. rewrite !cleanup_lookup_kept. apply kept_at_idem. }
  rewrite (cleanup_world (snd (cleanup w))).
  rewrite cleanup_world in He |- *. cbn in He |- *. now rewrite He.
Qed.

Lemma cleanupLoop_lookup (n : nat) :
  forall (w : World) (id : string),
    entries (snd (cleanupLoop (S n) w)) !! id =
      kept_at (now w + Z.of_nat (S n) * (5 * Minute)) (entries w !! id).
Proof.
  induction n as [|n IH]; intros w id.
  - rewrite cleanupLoop_S. cbn [cleanupLoop ret snd].
    rewrite cleanup_lookup_kept. cbn [sleep snd now entries set_now].
    change (Z.max 0 (5 * Minute)) with (5 * Minute).
    f_equal; lia.
  - rewrite cleanupLoop_S, IH, cleanup_lookup_kept.
    cbn [sleep snd now entries set_now cleanup set_entries].
    change (Z.max 0 (5 * Minute)) with 300000000000.
    change (5 * Minute) with 300000000000.
    replace (now w + 300000000000 + Z.of_nat (S n) * 300000000000)
      with (now w + Z.of_nat (S (S n)) * 300000000000) by lia.
    apply kept_at_later. lia.
Qed.

(** X6.  The sweeper alone, over any positive number of ticks of its
    five-minute ticker, leaves exactly the entries that are at most 30
    minutes old at the last tick: the earlier ticks remove nothing that
    the last one would keep. *)
Theorem cleanupLoop_keeps_recent_at_last_tick (n : nat) (w : World) (id : string) :
  let t := now w + Z.of_nat (S n) * (5 * Minute) in
  fst (cleanupLoop (S n) w) = Done tt
  /\ now (snd (cleanupLoop (S n) w)) = t
  /\ fst (Get id (snd (cleanupLoop (S n) w))) =
       Done match entries w !! id with
            | Some e => if t - CreatedAt e >? 30 * Minute then None else Some e
            | None => None
            end.
Proof.
  intros t. destruct (cleanupLoop_clock (S n) w) as [Hd Hn].
  split; [exact Hd|]. split; [exact Hn|].
  unfold Get. cbn [fst]. f_equal. apply cleanupLoop_lookup.
Qed.

(** X7.  With the sweeper running and nothing storing, the cache is
    empty after seven ticks: an entry that was not created in the future
    is at most 35 minutes away from its removal. *)
Theorem cleanupLoop_empties_in_seven_ticks (w : World) :
  cache_ok w = true ->
  entries (snd (cleanupLoop 7 w)) = ∅
  /\ fst (Count (snd (cleanupLoop 7 w))) = Done 0.
Proof.
  intros Hok. apply bool_decide_eq_true_1 in Hok.
  assert (He : entries (snd (cleanupLoop 7 w)) = ∅).
  { apply map_eq. intros id. rewrite cleanupLoop_lookup, lookup_empty.
    destruct (entries w !! id) as [e|] eqn:E; [|reflexivity]. cbn [kept_at].
    destruct (Hok id e E) as [_ Hc].
    destruct (Z.gtb_spec (now w + Z.of_nat 7 * (5 * Minute) - CreatedAt e) expiry)
      as [|Hle]; [reflexivity|].
    exfalso. revert Hle. rewrite expiry_eq.
    change (Z.of_nat 7 * (5 * Minute)) with 2100000000000. lia. }
  split; [exact He|]. unfold Count. cbn [fst]. now rewrite He, map_size_empty.
Qed.

Lemma cleanupLoop_empties_in_seven_ticks_witness :
  let w := snd (Store env_up "aGk=" "image/jpeg" fresh_world) in
  entries (snd (cleanupLoop 7 w)) = ∅
  /\ fst (Count (snd (cleanupLoop 7 w))) = Done 0.
Proof.
  apply (cleanupLoop_empties_in_seven_ticks
           (snd (Store env_up "aGk=" "image/jpeg" fresh_world))).
  vm_compute. reflexivity.
Defined.

Lemma step_now (env : Env) (ev : Event) (w : World) :
  now (snd (step env ev w)) =
    match ev with EvSleep d => now w + Z.max 0 d | _ => now w end.
Proof.
  destruct ev as [p m|c|c| |d]; try reflexivity.
  cbn [step]. unfold bind, Delete. now destruct (entries w !! c).
Qed.

Lemma step_keeps_cache_ok (env : Env) (ev : Event) (w : World) :
  cache_ok w = true -> cache_ok (snd (step env ev w)) = true.
Proof.
  intros Hok. apply bool_decide_eq_true_1 in Hok. apply bool_decide_eq_true_2.
  intros id e He. rewrite step_entries in He. rewrite step_now.
  destruct ev as [p m|c|c| |d].
  - destruct (decide (nextID env w = id)) as [<-|_].
    + injection He as <-. cbn. split; [apply nextID_is_cache_id|lia].
    + exact (Hok id e He).
  - exact (Hok id e He).
  - destruct (decide (c = id)); [discriminate|exact (Hok id e He)].
  - destruct (entries w !! id) as [e'|] eqn:E; [|discriminate].
    destruct (now w - CreatedAt e' >? expiry); [discriminate|].
    injection He as <-. exact (Hok id e' E).
  - destruct (Hok id e He). split; [assumption|lia].
Qed.

(** X8.  Two invariants of the cache under every schedule of stores,
    reads, deletes, sweeps and waits: every key has the shape of a cache
    id (32 lower-case hexadecimal digits), and no entry carries a
    creation time later than the clock.  The schedule itself never
    panics. *)
Theorem run_keeps_cache_ok (env : Env) (evs : list Event) (w : World) :
  cache_ok w = true ->
  cache_ok (snd (run env evs w)) = true
  /\ exists replies, fst (run env evs w) = Done replies.
Proof.
  intros Hok. split; [|apply run_done].
  revert w Hok. induction evs as [|ev rest IH]; intros w Hok; [exact Hok|].
  rewrite run_snd_cons. apply IH. now apply step_keeps_cache_ok.
Qed.

Lemma run_keeps_cache_ok_witness :
  cache_ok (snd (run env_up late_read fresh_world)) = true
  /\ exists replies, fst (run env_up late_read fresh_world) = Done replies.
Proof.
  apply (run_keeps_cache_ok env_up late_read fresh_world). reflexivity.
Defined.


(* ===================================================================== *)
(** ** Further properties: the Gemini service                             *)
(* ===================================================================== *)

Lemma only_calls_none (n : nat) (w : World) : only_calls n w w.
Proof. repeat split. exists []. split; [reflexivity|cbn; lia]. Qed.

Lemma only_calls_called (n : nat) (m : string) (parts : list Input) (w w' : World) :
  only_calls n w w' -> only_calls (S n) w (called m parts w').
Proof.
  intros (He & Hn & Hr & calls & Hc & Hl). repeat split; try assumption.
  exists ((m, parts) :: calls). cbn. rewrite Hc. split; [reflexivity|lia].
Qed.

Lemma only_calls_more (n n' : nat) (w w' : World) :
  (n <= n')%nat -> only_calls n w w' -> only_calls n' w w'.
Proof.
  intros Hle (He & Hn & Hr & calls & Hc & Hl). repeat split; try assumption.
  exists calls. split; [assumption|lia].
Qed.

(** Where each service leaves the state: as it found it when it stops
    before the provider, with one call logged otherwise. *)
Lemma AnalyzeClothing_world
    (env : Env) (s : GeminiService) (imageBase64 mimeType : string) (w : World) :
  snd (AnalyzeClothing env s imageBase64 mimeType w) =
    match decodeBase64Image imageBase64 with
    | Done (Ok data) =>
        called (model s)
          [ImageData (TrimPrefix mimeType "image/") data; InText AnalyzePrompt] w
    | _ => w
    end.
Proof.
  unfold AnalyzeClothing, bind, lift, callProvider.
  destruct (decodeBase64Image imageBase64) as [[data|e]|msg]; try reflexivity.
  cbn. destruct (GenerateContent env _ _ _) as [[r|]|e]; try reflexivity.
  destruct (Candidates r) as [|c cs]; [reflexivity|].
  destruct (Parts (CandidateContent c)); [reflexivity|].
  now destruct (json_Unmarshal env _).
Qed.

Lemma image_service_world
    (env : Env) (m : string) (parts : list Input) (what : string) (w : World) :
  snd ((resp <- callProvider env m parts ;;
        match resp with
        | Err err => ret (Err (Wrapf what err))
        | Ok resp => ret (extractImageFromResponse resp)
        end) w) = called m parts w.
Proof.
  unfold bind, callProvider. now destruct (GenerateContent env _ _ _).
Qed.

Lemma decodeItems_app (a b : list string) :
  decodeItems (a ++ b) = decodeItems a ++ decodeItems b.
Proof.
  induction a as [|img a IH]; [reflexivity|].
  cbn [decodeItems app]. rewrite IH. now destruct (Base64.DecodeString img).
Qed.

Lemma decodeItems_undecodable (bad : list string) :
  forallb undecodable bad = true -> decodeItems bad = [].
Proof.
  induction bad as [|img bad IH]; [reflexivity|].
  cbn [forallb decodeItems]. intros H. apply andb_prop in H as [Hi Hb].
  unfold undecodable in Hi. destruct (Base64.DecodeString img); [discriminate|].
  now apply IH.
Qed.

(** X9.  No service of the Gemini client touches the cache, the clock or
    the random source, on any input and whatever the provider answers
    (panics included); each makes at most one provider call, the
    refine-analysis at most two. *)
Theorem services_only_call_the_provider
    (env : Env) (s : GeminiService) (imageBase64 userFeedback mimeType : string)
    (metrics : AvatarMetrics) (items : list string) (w : World) :
  only_calls 1 w (snd (AnalyzeClothing env s imageBase64 mimeType w))
  /\ only_calls 2 w
       (snd (RefineClothingAnalysis env s imageBase64 userFeedback mimeType w))
  /\ only_calls 1 w (snd (Services.GenerateCutout env s imageBase64 mimeType w))
  /\ only_calls 1 w (snd (GenerateAvatar env s imageBase64 mimeType metrics w))
  /\ only_calls 1 w (snd (GenerateCollage env s items w))
  /\ only_calls 1 w (snd (VirtualTryOn env s imageBase64 items w)).
Proof.
  assert (Hanalyze : forall w0,
            only_calls 1 w0 (snd (AnalyzeClothing env s imageBase64 mimeType w0))).
  { intros w0. rewrite AnalyzeClothing_world.
    destruct (decodeBase64Image imageBase64) as [[data|e]|msg];
      first [apply only_calls_called, only_calls_none | apply only_calls_none]. }
  split; [apply Hanalyze|]. split; [|split; [|split; [|split]]].
  - unfold RefineClothingAnalysis, bind at 1, lift.
    destruct (decodeBase64Image imageBase64) as [[data|e]|msg] eqn:Hdec;
      try apply only_calls_none.
    unfold bind at 1, callProvider at 1.
    match goal with
    | |- context [set_provider_calls ((?m, ?parts) :: _) w] =>
        fold (called m parts w);
        pose proof (only_calls_called 0 m parts w w (only_calls_none 0 w)) as H1;
        pose proof (Hanalyze (called m parts w)) as H2
    end.
    assert (Htwo : only_calls 2 w
              (snd (AnalyzeClothing env s imageBase64 mimeType
                      (called (model s)
                         [ImageData mimeType data;
                          InText (RefineAnalysisPrompt userFeedback)] w)))).
    { rewrite AnalyzeClothing_world, Hdec.
      apply only_calls_called. exact H1. }
    destruct (GenerateContent env _ _ _) as [[r|]|e].
    + destruct (Candidates r) as [|c cs];
        [apply (only_calls_more 1 2); [lia|exact H1]|].
      destruct (json_Unmarshal env _);
        [apply (only_calls_more 1 2); [lia|exact H1]|exact Htwo].
    + apply (only_calls_more 1 2); [lia|exact H1].
    + exact Htwo.
  - unfold Services.GenerateCutout, bind at 1, lift.
    destruct (decodeBase64Image imageBase64) as [[data|e]|msg];
      try apply only_calls_none.
    rewrite image_service_world. apply only_calls_called, only_calls_none.
  - unfold GenerateAvatar, bind at 1, lift.
    destruct (decodeBase64Image imageBase64) as [[data|e]|msg];
      try apply only_calls_none.
    rewrite image_service_world. apply only_calls_called, only_calls_none.
  - unfold GenerateCollage. destruct (decodeItems items); [apply only_calls_none|].
    rewrite image_service_world. apply only_calls_called, only_calls_none.
  - unfold VirtualTryOn. destruct (Base64.DecodeString imageBase64);
      [|apply only_calls_none].
    rewrite image_service_world. apply only_calls_called, only_calls_none.
Qed.

Lemma stripPrefix_app (p s : string) : stripPrefix p (p +:+ s) = Some s.
Proof.
  induction p as [|a p IH]; [now destruct s|].
  change (String a p +:+ s) with (String a (p +:+ s)).
  cbn -[Ascii.eqb]. now rewrite Ascii.eqb_refl.
Qed.

Lemma TrimPrefix_app (p s : string) : TrimPrefix (p +:+ s) p = s.
Proof. unfold TrimPrefix. now rewrite stripPrefix_app. Qed.

Lemma TrimPrefix_without (p s : string) : HasPrefix s p = false -> TrimPrefix s p = s.
Proof. unfold HasPrefix, TrimPrefix. now destruct (stripPrefix p s). Qed.

(** X10.  Analysis and cutout accept the media type with or without its
    [image/] prefix: both spellings lead to the same provider call and
    the same result. *)
Theorem mime_prefix_is_optional
    (env : Env) (s : GeminiService) (imageBase64 format : string) (w : World) :
  HasPrefix format "image/" = false ->
  AnalyzeClothing env s imageBase64 ("image/" +:+ format) w
    = AnalyzeClothing env s imageBase64 format w
  /\ Services.GenerateCutout env s imageBase64 ("image/" +:+ format) w
       = Services.GenerateCutout env s imageBase64 format w.
Proof.
  intros Hf. unfold AnalyzeClothing, Services.GenerateCutout.
  rewrite !TrimPrefix_app, !(TrimPrefix_without _ _ Hf). split; reflexivity.
Qed.

Lemma mime_prefix_is_optional_witness :
  AnalyzeClothing env_up the_service "aGk=" ("image/" +:+ "jpeg") fresh_world
    = AnalyzeClothing env_up the_service "aGk=" "jpeg" fresh_world
  /\ Services.GenerateCutout env_up the_service "aGk=" ("image/" +:+ "jpeg") fresh_world
       = Services.GenerateCutout env_up the_service "aGk=" "jpeg" fresh_world.
Proof.
  apply (mime_prefix_is_optional env_up the_service "aGk=" "jpeg" fresh_world).
  reflexivity.
Defined.

(** X11.  Collage and try-on do not see the garment images that fail to
    decode: putting any number of them anywhere in the list changes
    neither the provider call nor the result. *)
Theorem undecodable_items_are_invisible
    (env : Env) (s : GeminiService) (avatarImageBase64 : string)
    (front bad back : list string) (w : World) :
  forallb undecodable bad = true ->
  GenerateCollage env s (front ++ bad ++ back) w
    = GenerateCollage env s (front ++ back) w
  /\ VirtualTryOn env s avatarImageBase64 (front ++ bad ++ back) w
       = VirtualTryOn env s avatarImageBase64 (front ++ back) w.
Proof.
  intros Hbad. unfold GenerateCollage, VirtualTryOn.
  rewrite !decodeItems_app, (decodeItems_undecodable bad Hbad). split; reflexivity.
Qed.

Lemma undecodable_items_are_invisible_witness :
  GenerateCollage env_up the_service
    (["aGk="] ++ ["data:image/jpeg;base64,aGk="; "!!!"] ++ ["QUJD"]) fresh_world
    = GenerateCollage env_up the_service (["aGk="] ++ ["QUJD"]) fresh_world
  /\ VirtualTryOn env_up the_service "aGk="
       (["aGk="] ++ ["data:image/jpeg;base64,aGk="; "!!!"] ++ ["QUJD"]) fresh_world
       = VirtualTryOn env_up the_service "aGk=" (["aGk="] ++ ["QUJD"]) fresh_world.
Proof.
  apply (undecodable_items_are_invisible env_up the_service "aGk="
           ["aGk="] ["data:image/jpeg;base64,aGk="; "!!!"] ["QUJD"] fresh_world).
  reflexivity.
Defined.

(** X12.  With no garment image that decodes (none at all included), a
    collage fails before the provider is called, but a try-on goes
    ahead: the provider is called with the avatar alone. *)
Theorem no_valid_item_stops_collage_not_tryon
    (env : Env) (s : GeminiService) (avatarImageBase64 : string)
    (items : list string) (avatarData : list byte) (w : World) :
  let parts := [ImageData "image/jpeg" avatarData; InText TryOnPrompt] in
  forallb undecodable items = true ->
  Base64.DecodeString avatarImageBase64 = Ok avatarData ->
  GenerateCollage env s items w
    = (Done (Err (Errorf "no valid images provided")), w)
  /\ VirtualTryOn env s avatarImageBase64 items w
       = (Done match GenerateContent env (List.length (provider_calls w))
                       (imageModel s) parts with
               | Err err => Err (Wrapf "failed to generate try-on" err)
               | Ok resp => extractImageFromResponse resp
               end,
          called (imageModel s) parts w).
Proof.
  intros parts Hbad Hav. unfold GenerateCollage, VirtualTryOn.
  rewrite (decodeItems_undecodable items Hbad), Hav. split; [reflexivity|].
  unfold bind, callProvider. cbn [app]. fold parts.
  now destruct (GenerateContent env _ _ parts).
Qed.

Lemma no_valid_item_stops_collage_not_tryon_witness :
  GenerateCollage env_up the_service ["!!!"] fresh_world
    = (Done (Err (Errorf "no valid images provided")), fresh_world)
  /\ VirtualTryOn env_up the_service "aGk=" ["!!!"] fresh_world
       = (Done (Ok "aGk="),
          called "gemini-3-pro-image-preview"
            [ImageData "image/jpeg" ["h"; "i"]%byte; InText TryOnPrompt] fresh_world).
Proof.
  apply (no_valid_item_stops_collage_not_tryon env_up the_service "aGk=" ["!!!"]
           ["h"; "i"]%byte fresh_world); reflexivity.
Defined.


(* ===================================================================== *)
(** ** Further properties: the handlers                                   *)
(* ===================================================================== *)

Lemma NewAIHandler_unconfigured (env : Env) :
  unconfigured env = true -> gemini (NewAIHandler env) = None.
Proof.
  unfold unconfigured, NewAIHandler, NewGeminiService. intros H.
  destruct (String.eqb (GEMINI_API_KEY env) EmptyString); [reflexivity|].
  cbn in H. now destruct (NewClient env).
Qed.

(** X13.  Without an API key, or when the client cannot be built, the
    handler made by [NewAIHandler] answers the avatar, collage and try-on
    endpoints with 200 and a fixed placeholder for every bound request:
    nothing is decoded (a malformed image is answered the same), the
    provider is not called and the state does not change. *)
Theorem placeholders_when_unconfigured
    (env : Env) (avatar : Endpoints.GenerateAvatarRequest.t)
    (collage : Endpoints.GenerateCollageRequest.t)
    (tryon : Endpoints.VirtualTryOnRequest.t) (w : World) :
  let h := NewAIHandler env in
  unconfigured env = true ->
  Endpoints.GenerateAvatar env h (Ok avatar) w =
    (Done {| Status := 200;
             Body := {[ "message" := JString "Avatar generation - Gemini not configured";
                        "imageUrl" := JString "https://picsum.photos/400/600" ]} |}, w)
  /\ Endpoints.GenerateCollage env h (Ok collage) w =
       (Done {| Status := 200;
                Body := {[ "message" := JString "Collage generation - Gemini not configured";
                           "collageUrl" := JString "https://picsum.photos/600/800" ]} |}, w)
  /\ Endpoints.VirtualTryOn env h (Ok tryon) w =
       (Done {| Status := 200;
                Body := {[ "message" := JString "Virtual try-on - Gemini not configured";
                           "tryOnUrl" := JString "https://picsum.photos/400/600" ]} |}, w).
Proof.
  intros h Hun. pose proof (NewAIHandler_unconfigured env Hun) as Hg.
  unfold Endpoints.GenerateAvatar, Endpoints.GenerateCollage, Endpoints.VirtualTryOn.
  fold h in Hg. rewrite Hg. repeat split.
Qed.

(** An environment without API key. *)
Lemma placeholders_when_unconfigured_witness :
  let env := {| rand_Read := toy_rand;
                GenerateContent := GenerateContent env_up;
                json_Unmarshal := toy_Unmarshal;
                GEMINI_API_KEY := EmptyString;
                NewClient := Ok tt |} in
  fst (Endpoints.VirtualTryOn env (NewAIHandler env)
         (Ok {| Endpoints.VirtualTryOnRequest.AvatarImageBase64 := "!!!";
                Endpoints.VirtualTryOnRequest.ItemImages := [] |}) fresh_world) =
    Done {| Status := 200;
            Body := {[ "message" := JString "Virtual try-on - Gemini not configured";
                       "tryOnUrl" := JString "https://picsum.photos/400/600" ]} |}.
Proof.
  intros env.
  destruct (placeholders_when_unconfigured env
              {| Endpoints.GenerateAvatarRequest.FaceImageBase64 := "!!!";
                 Endpoints.GenerateAvatarRequest.MimeType := "image/jpeg";
                 Endpoints.GenerateAvatarRequest.Gender := "f";
                 Endpoints.GenerateAvatarRequest.Height := "170";
                 Endpoints.GenerateAvatarRequest.Weight := "60";
                 Endpoints.GenerateAvatarRequest.Bust := EmptyString;
                 Endpoints.GenerateAvatarRequest.Waist := EmptyString;
                 Endpoints.GenerateAvatarRequest.Hips := EmptyString;
                 Endpoints.GenerateAvatarRequest.Thigh := EmptyString;
                 Endpoints.GenerateAvatarRequest.Calf := EmptyString;
                 Endpoints.GenerateAvatarRequest.Features := EmptyString |}
              {| Endpoints.GenerateCollageRequest.ItemImages := [] |}
              {| Endpoints.VirtualTryOnRequest.AvatarImageBase64 := "!!!";
                 Endpoints.VirtualTryOnRequest.ItemImages := [] |}
              fresh_world eq_refl) as (_ & _ & H).
  now rewrite H.
Defined.

(** X14.  The cutout session works without the provider too: an
    unconfigured generate-cutout stores the image as it came (decodable
    or not) and answers 200 with the id; a refine-cutout with that id
    then answers 200 with the current cutout sent back and the same id,
    leaves the entry in place and calls nobody. *)
Theorem cutout_session_when_unconfigured
    (env : Env) (h : AIHandler) (req : GenerateCutoutRequest.t)
    (current feedback refineMime : string) (w : World) :
  let id := nextID env w in
  let w1 := snd (Store env (GenerateCutoutRequest.ImageBase64 req)
                   (GenerateCutoutRequest.MimeType req) w) in
  let refine := {| RefineCutoutRequest.CacheID := id;
                   RefineCutoutRequest.CurrentCutoutBase64 := current;
                   RefineCutoutRequest.UserFeedback := feedback;
                   RefineCutoutRequest.MimeType := refineMime |} in
  gemini h = None ->
  GenerateCutout env h (Ok req) w =
    (Done {| Status := 200;
             Body := {[ "message" := JString "Cutout generation - Gemini not configured";
                        "imageUrl" := JString "https://picsum.photos/400/600";
                        "cacheId" := JString id ]} |}, w1)
  /\ RefineCutout env h (Ok refine) w1 =
       (Done {| Status := 200;
                Body := {[ "message" := JString "Cutout refinement - Gemini not configured";
                           "imageBase64" := JString current;
                           "cacheId" := JString id ]} |}, w1)
  /\ provider_calls w1 = provider_calls w.
Proof.
  intros id w1 refine Hg. split; [|split; [|reflexivity]].
  - unfold GenerateCutout, bind. subst w1. rewrite Store_spec, Hg. reflexivity.
  - unfold RefineCutout, bind, Get. cbn [RefineCutoutRequest.CacheID refine].
    subst w1. rewrite Store_spec. cbn [snd entries set_entries set_rand_calls].
    fold id. rewrite lookup_insert_eq, Hg. reflexivity.
Qed.

Lemma cutout_session_when_unconfigured_witness :
  let id := "00000000000000000000000000000000" in
  let w1 := snd (Store env_up malformed_image "image/jpeg" fresh_world) in
  fst (GenerateCutout env_up {| gemini := None |} (Ok malformed_request) fresh_world) =
    Done {| Status := 200;
            Body := {[ "message" := JString "Cutout generation - Gemini not configured";
                       "imageUrl" := JString "https://picsum.photos/400/600";
                       "cacheId" := JString id ]} |}
  /\ RefineCutout env_up {| gemini := None |}
       (Ok {| RefineCutoutRequest.CacheID := id;
              RefineCutoutRequest.CurrentCutoutBase64 := "aGk=";
              RefineCutoutRequest.UserFeedback := "make it brighter";
              RefineCutoutRequest.MimeType := "image/jpeg" |}) w1 =
       (Done {| Status := 200;
                Body := {[ "message" := JString "Cutout refinement - Gemini not configured";
                           "imageBase64" := JString "aGk=";
                           "cacheId" := JString id ]} |}, w1).
Proof.
  destruct (cutout_session_when_unconfigured env_up {| gemini := None |}
              malformed_request "aGk=" "make it brighter" "image/jpeg" fresh_world
              eq_refl) as (H1 & H2 & _).
  split; [now rewrite H1|exact H2].
Defined.

Lemma Services_GenerateCutout_answered
    (env : Env) (g : GeminiService) (imageBase64 mimeType : string)
    (w : World) (data : list byte) :
  let parts := [ImageData (TrimPrefix mimeType "image/") data; InText CutoutPrompt] in
  decodeBase64Image imageBase64 = Done (Ok data) ->
  Services.GenerateCutout env g imageBase64 mimeType w =
    (Done match GenerateContent env (List.length (provider_calls w)) (imageModel g) parts with
          | Err err => Err (Wrapf "failed to generate cutout" err)
          | Ok resp => extractImageFromResponse resp
          end,
     called (imageModel g) parts w).
Proof.
  intros parts Hdec. unfold Services.GenerateCutout, bind, lift, callProvider.
  rewrite Hdec. fold parts. now destruct (GenerateContent env _ _ parts).
Qed.

(** X15.  A generate-cutout request that succeeds (service configured,
    image decodable, an answer with a binary part) is answered 200 with
    the encoded image and the minted id; afterwards the cache holds,
    under that id, the image and the media type exactly as the request
    carried them (header and prefix included) with the time of the
    request, and one provider call has been made. *)
Theorem GenerateCutout_success_stages_the_original
    (env : Env) (h : AIHandler) (g : GeminiService)
    (req : GenerateCutoutRequest.t) (w : World) (data : list byte)
    (resp : option GenerateContentResponse) (image : string) :
  let imageBase64 := GenerateCutoutRequest.ImageBase64 req in
  let mimeType := GenerateCutoutRequest.MimeType req in
  let id := nextID env w in
  let parts := [ImageData (TrimPrefix mimeType "image/") data; InText CutoutPrompt] in
  let answer := GenerateCutout env h (Ok req) w in
  gemini h = Some g ->
  decodeBase64Image imageBase64 = Done (Ok data) ->
  GenerateContent env (List.length (provider_calls w)) (imageModel g) parts = Ok resp ->
  extractImageFromResponse resp = Ok image ->
  fst answer =
    Done {| Status := 200;
            Body := {[ "imageBase64" := JString image;
                       "cacheId" := JString id;
                       "message" := JString "Cutout generated successfully" ]} |}
  /\ fst (Get id (snd answer)) =
       Done (Some {| OriginalImageBase64 := imageBase64;
                     MimeType := mimeType;
                     CreatedAt := now w |})
  /\ provider_calls (snd answer) = (imageModel g, parts) :: provider_calls w.
Proof.
  intros imageBase64 mimeType id parts answer Hg Hdec Hcall Himg.
  subst answer. rewrite (GenerateCutout_configured env h g req w Hg).
  fold imageBase64 mimeType.
  rewrite (Services_GenerateCutout_answered env g imageBase64 mimeType
             (snd (Store env imageBase64 mimeType w)) data Hdec).
  rewrite Store_spec.
  cbn [snd provider_calls set_entries set_rand_calls]. fold parts.
  rewrite Hcall, Himg. cbn. fold id.
  split; [reflexivity|]. split; [|reflexivity]. now rewrite lookup_insert_eq.
Qed.

Lemma GenerateCutout_success_stages_the_original_witness :
  let req := {| GenerateCutoutRequest.ImageBase64 := "data:image/jpeg;base64,QUJD";
                GenerateCutoutRequest.MimeType := "image/jpeg" |} in
  let id := "00000000000000000000000000000000" in
  let answer := GenerateCutout env_up {| gemini := Some the_service |} (Ok req)
                  fresh_world in
  fst answer =
    Done {| Status := 200;
            Body := {[ "imageBase64" := JString "aGk=";
                       "cacheId" := JString id;
                       "message" := JString "Cutout generated successfully" ]} |}
  /\ fst (Get id (snd answer)) =
       Done (Some {| OriginalImageBase64 := "data:image/jpeg;base64,QUJD";
                     MimeType := "image/jpeg";
                     CreatedAt := 0 |})
  /\ provider_calls (snd answer) =
       [("gemini-3-pro-image-preview",
         [ImageData "jpeg" ["A"; "B"; "C"]%byte; InText CutoutPrompt])].
Proof.
  apply (GenerateCutout_success_stages_the_original env_up
           {| gemini := Some the_service |} the_service
           {| GenerateCutoutRequest.ImageBase64 := "data:image/jpeg;base64,QUJD";
              GenerateCutoutRequest.MimeType := "image/jpeg" |}
           fresh_world ["A"; "B"; "C"]%byte
           (Some {| Candidates :=
                      [ {| CandidateContent :=
                             {| Parts := [Text "done"; Blob "image/png" ["h"; "i"]%byte] |} |} ] |})
           "aGk="); reflexivity.
Defined.


Ltac in_order :=
  cbn; split; [auto|intros Hst; first [reflexivity | discriminate Hst]].

(** X17.  Every answer of the cutout, refine-cutout, clear, avatar,
    collage and try-on handlers is a 200, a 400 or a 500, for a request
    that failed to bind as for a bound one; and a 400 is never sent after
    something was stored, deleted or asked of the provider. *)
Theorem handlers_answer_in_order
    (env : Env) (h : AIHandler)
    (cutout : res GenerateCutoutRequest.t) (refine : res RefineCutoutRequest.t)
    (clear : res ClearCacheRequest.t)
    (avatar : res Endpoints.GenerateAvatarRequest.t)
    (collage : res Endpoints.GenerateCollageRequest.t)
    (tryon : res Endpoints.VirtualTryOnRequest.t) (w : World) :
  answered_in_order w (GenerateCutout env h cutout w)
  /\ answered_in_order w (RefineCutout env h refine w)
  /\ answered_in_order w (ClearImageCache h clear w)
  /\ answered_in_order w (Endpoints.GenerateAvatar env h avatar w)
  /\ answered_in_order w (Endpoints.GenerateCollage env h collage w)
  /\ answered_in_order w (Endpoints.VirtualTryOn env h tryon w).
Proof.
  split; [|split; [|split; [|split; [|split]]]].
  - destruct cutout as [req|err]; [|in_order].
    destruct (gemini h) as [g|] eqn:Hg.
    + rewrite (GenerateCutout_configured env h g req w Hg).
      destruct (Services.GenerateCutout env g _ _ _) as [[[image|err]|msg] w2];
        [in_order|in_order|exact I].
    + unfold GenerateCutout, bind. rewrite Store_spec, Hg. in_order.
  - destruct refine as [req|err]; [|in_order].
    unfold RefineCutout, bind at 1, Get.
    destruct (entries w !! RefineCutoutRequest.CacheID req) as [entry|]; [|in_order].
    destruct (gemini h) as [g|]; [|in_order].
    unfold bind.
    destruct (Services.RefineCutout env g _ _ _ _ _) as [[[image|err]|msg] w2];
      [in_order|in_order|exact I].
  - destruct clear as [req|err]; [|in_order].
    destruct req as [id]. rewrite (ClearImageCache_spec env). in_order.
  - destruct avatar as [req|err]; [|in_order].
    unfold Endpoints.GenerateAvatar. destruct (gemini h) as [g|]; [|in_order].
    unfold bind.
    destruct (Services.GenerateAvatar env g _ _ _ _) as [[[image|err]|msg] w2];
      [in_order|in_order|exact I].
  - destruct collage as [req|err]; [|in_order].
    unfold Endpoints.GenerateCollage. destruct (gemini h) as [g|]; [|in_order].
    unfold bind.
    destruct (Services.GenerateCollage env g _ _) as [[[image|err]|msg] w2];
      [in_order|in_order|exact I].
  - destruct tryon as [req|err]; [|in_order].
    unfold Endpoints.VirtualTryOn. destruct (gemini h) as [g|]; [|in_order].
    unfold bind.
    destruct (Services.VirtualTryOn env g _ _ _) as [[[image|err]|msg] w2];
      [in_order|in_order|exact I].
Qed.




(** X19.  When the decoder's log line panics in a generate-cutout
    request, the handler is left after it has stored the image and before
    it could delete it: the entry stays in the cache under an id that
    nobody was told, until a sweep removes it. *)
Theorem GenerateCutout_panic_leaves_the_entry
    (env : Env) (h : AIHandler) (g : GeminiService)
    (req : GenerateCutoutRequest.t) (w : World) :
  let imageBase64 := GenerateCutoutRequest.ImageBase64 req in
  let mimeType := GenerateCutoutRequest.MimeType req in
  gemini h = Some g ->
  short_malformed imageBase64 = true ->
  GenerateCutout env h (Ok req) w =
    (Panicked slice_out_of_range, snd (Store env imageBase64 mimeType w))
  /\ fst (Get (nextID env w) (snd (GenerateCutout env h (Ok req) w))) =
       Done (Some {| OriginalImageBase64 := imageBase64;
                     MimeType := mimeType;
                     CreatedAt := now w |}).
Proof.
  intros imageBase64 mimeType Hg Hshort.
  assert (Hdec : decodeBase64Image imageBase64 = Panicked slice_out_of_range).
  { unfold short_malformed, undecodable in Hshort.
    apply andb_prop in Hshort as [Hu Hl]. unfold decodeBase64Image.
    destruct (Base64.DecodeString (afterComma imageBase64)); [discriminate|].
    now rewrite Hl. }
  assert (Hall : GenerateCutout env h (Ok req) w =
                 (Panicked slice_out_of_range, snd (Store env imageBase64 mimeType w))).
  { rewrite (GenerateCutout_configured env h g req w Hg). fold imageBase64 mimeType.
    unfold Services.GenerateCutout, bind, lift. now rewrite Hdec. }
  split; [exact Hall|]. rewrite Hall, Store_spec. unfold Get. cbn.
  now rewrite lookup_insert_eq.
Qed.

Lemma GenerateCutout_panic_leaves_the_entry_witness :
  let req := {| GenerateCutoutRequest.ImageBase64 := "data:image/jpeg;base64,!!!!";
                GenerateCutoutRequest.MimeType := "image/jpeg" |} in
  let h := {| gemini := Some the_service |} in
  GenerateCutout env_up h (Ok req) fresh_world =
    (Panicked slice_out_of_range,
     snd (Store env_up "data:image/jpeg;base64,!!!!" "image/jpeg" fresh_world))
  /\ fst (Get "00000000000000000000000000000000"
            (snd (GenerateCutout env_up h (Ok req) fresh_world))) =
       Done (Some {| OriginalImageBase64 := "data:image/jpeg;base64,!!!!";
                     MimeType := "image/jpeg";
                     CreatedAt := 0 |}).
Proof.
  apply (GenerateCutout_panic_leaves_the_entry env_up
           {| gemini := Some the_service |} the_service
           {| GenerateCutoutRequest.ImageBase64 := "data:image/jpeg;base64,!!!!";
              GenerateCutoutRequest.MimeType := "image/jpeg" |} fresh_world);
    reflexivity.
Defined.


(* ===================================================================== *)
(** ** Further properties: cleaning the provider's text                   *)
(* ===================================================================== *)

Lemma append_cons (x : ascii) (a b : string) :
  String x a +:+ b = String x (a +:+ b).
Proof. reflexivity. Qed.

Lemma append_assoc (a b c : string) : (a +:+ b) +:+ c = a +:+ b +:+ c.
Proof.
  induction a as [|x a IH]; [reflexivity|]. rewrite !append_cons. now rewrite IH.
Qed.

Lemma append_empty_r (a : string) : a +:+ EmptyString = a.
Proof.
  induction a as [|x a IH]; [reflexivity|]. rewrite append_cons. now rewrite IH.
Qed.

Lemma length_append (a b : string) :
  String.length (a +:+ b) = (String.length a + String.length b)%nat.
Proof.
  induction a as [|x a IH]; [reflexivity|]. rewrite append_cons. cbn.
  now rewrite IH.
Qed.

Lemma to_list_append (a b : string) :
  list_ascii_of_string (a +:+ b) = list_ascii_of_string a ++ list_ascii_of_string b.
Proof.
  induction a as [|x a IH]; [reflexivity|]. rewrite append_cons. cbn.
  now rewrite IH.
Qed.

Lemma of_list_app (l1 l2 : list ascii) :
  string_of_list_ascii (l1 ++ l2) = string_of_list_ascii l1 +:+ string_of_list_ascii l2.
Proof.
  induction l1 as [|x l1 IH]; [reflexivity|]. cbn. rewrite append_cons.
  now rewrite IH.
Qed.

Lemma rev_append (a b : string) :
  GoStrings.rev (a +:+ b) = GoStrings.rev b +:+ GoStrings.rev a.
Proof.
  unfold GoStrings.rev. now rewrite to_list_append, List.rev_app_distr, of_list_app.
Qed.

Lemma rev_rev (a : string) : GoStrings.rev (GoStrings.rev a) = a.
Proof.
  unfold GoStrings.rev.
  now rewrite list_ascii_of_string_of_list_ascii, List.rev_involutive,
    string_of_list_ascii_of_string.
Qed.

Lemma rev_length (a : string) : String.length (GoStrings.rev a) = String.length a.
Proof.
  induction a as [|x a IH]; [reflexivity|].
  change (String x a) with (String x EmptyString +:+ a).
  rewrite rev_append, !length_append, IH. cbn. lia.
Qed.

Lemma rev_blank (ws : string) : blank ws = true -> blank (GoStrings.rev ws) = true.
Proof.
  unfold blank, GoStrings.rev. rewrite list_ascii_of_string_of_list_ascii.
  rewrite !List.forallb_forall. intros H c Hc. apply H. now apply List.in_rev.
Qed.

Lemma blank_append (a b : string) :
  blank (a +:+ b) = blank a && blank b.
Proof. unfold blank. now rewrite to_list_append, List.forallb_app. Qed.

(** One white-space character at the front is dropped, from either
    pattern list. *)
Lemma dropSpace_space (c : ascii) (x : string) :
  isAsciiSpace c = true ->
  dropSpace front_spaces (String c x) = Some x
  /\ dropSpace back_spaces (String c x) = Some x.
Proof.
  intros H. destruct c as [[] [] [] [] [] [] [] []];
    vm_compute in H; try discriminate H; split; reflexivity.
Qed.

Lemma space_is_no_mark (c : ascii) :
  isAsciiSpace c = true ->
  Ascii.eqb "`"%char c = false /\ Ascii.eqb "j"%char c = false.
Proof.
  intros H. destruct c as [[] [] [] [] [] [] [] []];
    vm_compute in H; try discriminate H; split; reflexivity.
Qed.

Lemma trimLeft_stop (fuel : nat) (pats : list string) (s : string) :
  dropSpace pats s = None -> trimLeft fuel pats s = s.
Proof. intros H. destruct fuel; [reflexivity|]. cbn. now rewrite H. Qed.

Lemma trimLeft_blank (pats : list string) :
  (forall c x, isAsciiSpace c = true -> dropSpace pats (String c x) = Some x) ->
  forall (ws s : string) (fuel : nat),
    blank ws = true ->
    (String.length ws <= fuel)%nat ->
    trimLeft fuel pats (ws +:+ s) = trimLeft (fuel - String.length ws) pats s.
Proof.
  intros Hp ws s. induction ws as [|c ws IH]; intros fuel Hb Hl.
  - cbn. now rewrite Nat.sub_0_r.
  - cbn in Hl. destruct fuel as [|fuel]; [lia|].
    unfold blank in Hb. cbn [list_ascii_of_string forallb] in Hb.
    apply andb_prop in Hb as [Hc Hb].
    change (String c ws +:+ s) with (String c (ws +:+ s)).
    cbn [trimLeft]. rewrite (Hp c _ Hc). cbn [String.length Nat.sub].
    apply IH; [exact Hb|lia].
Qed.

(** [TrimSpace] takes ASCII white space off both ends of a text whose
    first and last characters are no white space. *)
Lemma TrimSpace_between (ws1 ws2 mid : string) (c0 c1 : ascii) :
  blank ws1 = true -> blank ws2 = true ->
  (forall x, dropSpace front_spaces (String c0 x) = None) ->
  (forall x, dropSpace back_spaces (String c1 x) = None) ->
  let body := String c0 (mid +:+ String c1 EmptyString) in
  TrimSpace (ws1 +:+ body +:+ ws2) = body.
Proof.
  intros H1 H2 H0 Hl body. unfold TrimSpace.
  fold front_spaces. fold back_spaces.
  rewrite (trimLeft_blank front_spaces (fun c x H => proj1 (dropSpace_space c x H))
             ws1 (body +:+ ws2) _ H1)
    by (rewrite length_append; lia).
  change (body +:+ ws2) with (String c0 ((mid +:+ String c1 EmptyString) +:+ ws2)).
  rewrite (trimLeft_stop _ _ _ (H0 _)).
  change (String c0 ((mid +:+ String c1 EmptyString) +:+ ws2)) with (body +:+ ws2).
  rewrite rev_append.
  rewrite (trimLeft_blank back_spaces (fun c x H => proj2 (dropSpace_space c x H))
             (GoStrings.rev ws2) (GoStrings.rev body) _ (rev_blank _ H2))
    by (rewrite rev_length, length_append; lia).
  assert (Hrb : GoStrings.rev body =
                String c1 (GoStrings.rev (String c0 mid))).
  { subst body. change (String c0 (mid +:+ String c1 EmptyString))
      with (String c0 mid +:+ String c1 EmptyString).
    now rewrite rev_append. }
  rewrite Hrb, (trimLeft_stop _ _ _ (Hl _)), <- Hrb. apply rev_rev.
Qed.

Lemma HasPrefix_app (p x : string) : HasPrefix (p +:+ x) p = true.
Proof. unfold HasPrefix. now rewrite stripPrefix_app. Qed.

Lemma HasSuffix_app (x p : string) : HasSuffix (x +:+ p) p = true.
Proof. unfold HasSuffix. rewrite rev_append. apply HasPrefix_app. Qed.

Lemma TrimSuffix_app (x p : string) : TrimSuffix (x +:+ p) p = x.
Proof. unfold TrimSuffix. rewrite rev_append, stripPrefix_app. apply rev_rev. Qed.

(** After white space and an opening brace no pattern starting with a
    back quote or a [j] matches. *)
Lemma stripPrefix_after_blank (p0 : ascii) (p ws x : string) :
  Ascii.eqb p0 "{"%char = false ->
  (forall c, isAsciiSpace c = true -> Ascii.eqb p0 c = false) ->
  blank ws = true ->
  stripPrefix (String p0 p) (ws +:+ String "{" x) = None.
Proof.
  intros Hb Hs Hw. destruct ws as [|c ws].
  - change (EmptyString +:+ String "{" x) with (String "{" x).
    cbn -[Ascii.eqb]. now rewrite Hb.
  - unfold blank in Hw. cbn [list_ascii_of_string forallb] in Hw.
    apply andb_prop in Hw as [Hc _]. rewrite append_cons.
    cbn -[Ascii.eqb]. now rewrite (Hs c Hc).
Qed.

Section Cleaning.
Variables (inner ws1 ws2 ws3 ws4 : string).
Hypothesis (B1 : blank ws1 = true) (B2 : blank ws2 = true).
Hypothesis (B3 : blank ws3 = true) (B4 : blank ws4 = true).

Local Abbreviation object := (json_object inner).

Lemma TrimSpace_object (a b : string) :
  blank a = true -> blank b = true -> TrimSpace (a +:+ object +:+ b) = object.
Proof.
  intros Ha Hb. apply (TrimSpace_between a b inner "{" "}" Ha Hb); reflexivity.
Qed.

Lemma object_has_no_fence :
  HasPrefix object "```json" = false /\ HasPrefix object "```" = false
  /\ HasSuffix object "```" = false.
Proof.
  split; [reflexivity|]. split; [reflexivity|].
  unfold HasSuffix, json_object.
  change (String "{" (inner +:+ String "}" EmptyString))
    with (String "{" inner +:+ String "}" EmptyString).
  rewrite rev_append. reflexivity.
Qed.

(** What the last three steps make of a text that has lost its opening
    fence. *)
Lemma after_opening_fence :
  let t := ws2 +:+ object +:+ ws3 +:+ "```" in
  let t1 := if HasPrefix t "```" then TrimPrefix t "```" else t in
  let t2 := if HasSuffix t1 "```" then TrimSuffix t1 "```" else t1 in
  TrimSpace t2 = object.
Proof.
  intros t t1 t2.
  assert (H1 : t1 = t).
  { subst t1. unfold HasPrefix.
    unfold t, json_object. rewrite append_cons.
    rewrite (stripPrefix_after_blank "`" "``" ws2 _ eq_refl
               (fun c H => proj1 (space_is_no_mark c H)) B2).
    reflexivity. }
  assert (Ht : t = (ws2 +:+ object +:+ ws3) +:+ "```").
  { unfold t. now rewrite !append_assoc. }
  subst t2. rewrite H1, Ht, HasSuffix_app, TrimSuffix_app.
  now apply TrimSpace_object.
Qed.

Lemma fenced_is_kept_by_TrimSpace (fence : string) :
  let t := String "`" fence +:+ ws2 +:+ object +:+ ws3 +:+ "```" in
  TrimSpace (ws1 +:+ t +:+ ws4) = t.
Proof.
  intros t.
  assert (Ht : t = String "`" ((fence +:+ ws2 +:+ object +:+ ws3 +:+ "``")
                               +:+ String "`" EmptyString)).
  { unfold t. rewrite append_cons. f_equal. now rewrite !append_assoc. }
  rewrite Ht.
  apply (TrimSpace_between ws1 ws4 _ "`" "`" B1 B4); reflexivity.
Qed.

Lemma cleanJSONResponse_plain :
  cleanJSONResponse (ws1 +:+ object +:+ ws2) = object.
Proof.
  unfold cleanJSONResponse. rewrite (TrimSpace_object ws1 ws2 B1 B2).
  destruct object_has_no_fence as (H1 & H2 & H3). rewrite H1, H2, H3.
  rewrite <- (append_empty_r object) at 1.
  now apply (TrimSpace_object EmptyString EmptyString).
Qed.

Lemma cleanJSONResponse_json_fence :
  cleanJSONResponse
    (ws1 +:+ "```json" +:+ ws2 +:+ object +:+ ws3 +:+ "```" +:+ ws4) = object.
Proof.
  unfold cleanJSONResponse.
  replace (ws1 +:+ "```json" +:+ ws2 +:+ object +:+ ws3 +:+ "```" +:+ ws4)
    with (ws1 +:+ (String "`" "``json" +:+ ws2 +:+ object +:+ ws3 +:+ "```") +:+ ws4)
    by now rewrite !append_assoc.
  rewrite (fenced_is_kept_by_TrimSpace "``json").
  change (String "`" "``json" +:+ ws2 +:+ object +:+ ws3 +:+ "```")
    with ("```json" +:+ ws2 +:+ object +:+ ws3 +:+ "```").
  rewrite HasPrefix_app, TrimPrefix_app. apply after_opening_fence.
Qed.

Lemma cleanJSONResponse_bare_fence :
  cleanJSONResponse
    (ws1 +:+ "```" +:+ ws2 +:+ object +:+ ws3 +:+ "```" +:+ ws4) = object.
Proof.
  unfold cleanJSONResponse.
  replace (ws1 +:+ "```" +:+ ws2 +:+ object +:+ ws3 +:+ "```" +:+ ws4)
    with (ws1 +:+ (String "`" "``" +:+ ws2 +:+ object +:+ ws3 +:+ "```") +:+ ws4)
    by now rewrite !append_assoc.
  rewrite (fenced_is_kept_by_TrimSpace "``").
  change (String "`" "``" +:+ ws2 +:+ object +:+ ws3 +:+ "```")
    with ("```" +:+ ws2 +:+ object +:+ ws3 +:+ "```").
  assert (Hj : HasPrefix ("```" +:+ ws2 +:+ object +:+ ws3 +:+ "```") "```json" = false).
  { unfold HasPrefix.
    change (stripPrefix "```json" ("```" +:+ ws2 +:+ object +:+ ws3 +:+ "```"))
      with (stripPrefix "json" (ws2 +:+ String "{" ((inner +:+ String "}" EmptyString)
                                                     +:+ ws3 +:+ "```"))).
    now rewrite (stripPrefix_after_blank "j" "son" ws2 _ eq_refl
                   (fun c H => proj2 (space_is_no_mark c H)) B2). }
  rewrite Hj, HasPrefix_app, TrimPrefix_app.
  pose proof after_opening_fence as H. cbv zeta in H.
  assert (H1 : HasPrefix (ws2 +:+ object +:+ ws3 +:+ "```") "```" = false).
  { unfold HasPrefix, json_object. rewrite append_cons.
    now rewrite (stripPrefix_after_blank "`" "``" ws2 _ eq_refl
                   (fun c H => proj1 (space_is_no_mark c H)) B2). }
  rewrite H1 in H. exact H.
Qed.

End Cleaning.

(** X20.  [cleanJSONResponse] hands the parser a JSON object as it is,
    whether the provider sent it bare, inside a [```json] fence or inside
    a plain [```] fence, and whatever ASCII white space surrounds the
    object and the fences. *)
Theorem cleanJSONResponse_unwraps_an_object (inner ws1 ws2 ws3 ws4 : string) :
  let object := "{" +:+ inner +:+ "}" in
  blank ws1 = true -> blank ws2 = true -> blank ws3 = true -> blank ws4 = true ->
  cleanJSONResponse (ws1 +:+ object +:+ ws2) = object
  /\ cleanJSONResponse
       (ws1 +:+ "```json" +:+ ws2 +:+ object +:+ ws3 +:+ "```" +:+ ws4) = object
  /\ cleanJSONResponse
       (ws1 +:+ "```" +:+ ws2 +:+ object +:+ ws3 +:+ "```" +:+ ws4) = object.
Proof.
  intros object B1 B2 B3 B4.
  change object with (String "{" (inner +:+ String "}" EmptyString)).
  split; [|split].
  - now apply cleanJSONResponse_plain.
  - now apply cleanJSONResponse_json_fence.
  - now apply cleanJSONResponse_bare_fence.
Qed.

Lemma cleanJSONResponse_unwraps_an_object_witness :
  let nl := String "010" EmptyString in
  let object := "{" +:+ " 'category': 'Tops' " +:+ "}" in
  cleanJSONResponse (" " +:+ object +:+ nl) = object
  /\ cleanJSONResponse
       (" " +:+ "```json" +:+ nl +:+ object +:+ nl +:+ "```" +:+ nl) = object
  /\ cleanJSONResponse
       (" " +:+ "```" +:+ nl +:+ object +:+ nl +:+ "```" +:+ nl) = object.
Proof.
  exact (cleanJSONResponse_unwraps_an_object " 'category': 'Tops' "
           " " (String "010" EmptyString) (String "010" EmptyString)
           (String "010" EmptyString) eq_refl eq_refl eq_refl eq_refl).
Defined.


(* ===================================================================== *)
(** ** Further properties: authentication in front of the routes          *)
(* ===================================================================== *)

Lemma stripPrefix_Some (p s r : string) : stripPrefix p s = Some r -> s = p +:+ r.
Proof.
  revert s. induction p as [|a p IH]; intros s H.
  - destruct s; cbn in H; now injection H as <-.
  - destruct s as [|b s]; [discriminate|]. cbn -[Ascii.eqb] in H.
    destruct (Ascii.eqb_spec a b) as [<-|]; [|discriminate].
    rewrite append_cons. f_equal. now apply IH.
Qed.

Section Authentication.
Import Auth Middleware.
Variable JWT_SECRET : string.
Variable ParseWithClaims : string -> (Token -> res string) -> res Token.

(** X21.  A request without an [Authorization] header is never turned
    away by [AuthMiddleware]: it goes on as the user named in the
    [user_id] query parameter, or as [demo-user] when there is none, with
    the demo address; the token parser is not consulted. *)
Theorem AuthMiddleware_demo_mode
    (userIDQuery : string) (keys : gmap string Value) :
  let user := if String.eqb userIDQuery EmptyString then "demo-user" else userIDQuery in
  let keys' := <["email" := VString "demo@example.com"]>
                 (<["userID" := VString user]> keys) in
  AuthMiddleware JWT_SECRET ParseWithClaims EmptyString userIDQuery keys = Next keys'
  /\ GetUserID keys' = Done user
  /\ GetEmail keys' = Done "demo@example.com".
Proof.
  intros user keys'. split; [|split].
  - unfold AuthMiddleware. cbn [String.eqb]. subst keys' user.
    now destruct (String.eqb userIDQuery EmptyString).
  - unfold GetUserID. subst keys'.
    now rewrite lookup_insert_ne, lookup_insert_eq by discriminate.
  - unfold GetEmail. subst keys'. now rewrite lookup_insert_eq.
Qed.

(** X22.  With an [Authorization] header the lenient and the strict
    middleware do the same; without one the strict middleware always
    answers 401. *)
Theorem RequireAuth_differs_only_without_header
    (authHeader userIDQuery : string) (keys : gmap string Value) :
  String.eqb authHeader EmptyString = false ->
  AuthMiddleware JWT_SECRET ParseWithClaims authHeader userIDQuery keys
    = RequireAuth JWT_SECRET ParseWithClaims authHeader keys
  /\ RequireAuth JWT_SECRET ParseWithClaims EmptyString keys
       = Abort 401 {[ "error" := Handlers.JString "Authentication required" ]}.
Proof.
  intros H. unfold AuthMiddleware, RequireAuth. rewrite H. split; reflexivity.
Qed.

(** X23.  A request that carries a header gets past the middleware only
    as [Bearer] followed by a token for which the parser returned a valid
    token with claims; the user id and the address then read from the
    context are the ones of those claims, and reading them does not
    panic. *)
Theorem AuthMiddleware_passes_only_valid_bearer
    (authHeader userIDQuery : string) (keys keys' : gmap string Value) :
  String.eqb authHeader EmptyString = false ->
  AuthMiddleware JWT_SECRET ParseWithClaims authHeader userIDQuery keys = Next keys' ->
  exists (tokenString : string) (token : Token) (claims : JWTClaims),
    authHeader = "Bearer " +:+ tokenString
    /\ ParseWithClaims tokenString (keyfunc (NewAuthService JWT_SECRET)) = Ok token
    /\ Claims token = Some claims /\ Valid token = true
    /\ GetUserID keys' = Done (UserID claims)
    /\ GetEmail keys' = Done (Email claims).
Proof.
  intros Hne Hpass. unfold AuthMiddleware in Hpass. rewrite Hne in Hpass.
  unfold HasPrefix, TrimPrefix in Hpass.
  destruct (stripPrefix "Bearer " authHeader) as [tokenString|] eqn:Hp;
    [|discriminate]. cbn [negb] in Hpass.
  unfold ValidateToken in Hpass.
  destruct (ParseWithClaims tokenString _) as [token|e] eqn:Hparse; [|discriminate].
  destruct (Claims token) as [claims|] eqn:Hc; [|discriminate].
  destruct (Valid token) eqn:Hv; [|discriminate].
  injection Hpass as <-.
  exists tokenString, token, claims.
  split; [now apply stripPrefix_Some|]. repeat (split; [assumption || reflexivity|]).
  split.
  - unfold GetUserID. now rewrite !lookup_insert_ne, lookup_insert_eq by discriminate.
  - unfold GetEmail. now rewrite lookup_insert_ne, lookup_insert_eq by discriminate.
Qed.

End Authentication.

Lemma RequireAuth_differs_only_without_header_witness :
  Middleware.AuthMiddleware "secret" toy_parse "Basic abc" "u-1" ∅
    = Middleware.RequireAuth "secret" toy_parse "Basic abc" ∅
  /\ Middleware.RequireAuth "secret" toy_parse EmptyString ∅
       = Middleware.Abort 401 {[ "error" := Handlers.JString "Authentication required" ]}.
Proof.
  apply (RequireAuth_differs_only_without_header "secret" toy_parse "Basic abc" "u-1" ∅).
  reflexivity.
Defined.

Lemma AuthMiddleware_passes_only_valid_bearer_witness :
  exists (tokenString : string) (token : Auth.Token) (claims : Auth.JWTClaims),
    "Bearer good" = "Bearer " +:+ tokenString
    /\ toy_parse tokenString (Auth.keyfunc (Auth.NewAuthService "secret")) = Ok token
    /\ Auth.Claims token = Some claims /\ Auth.Valid token = true
    /\ Middleware.GetUserID
         (<["claims" := Middleware.VClaims toy_claims]>
            (<["email" := Middleware.VString "ada@example.com"]>
               (<["userID" := Middleware.VString "u-17"]> ∅)))
       = Done (Auth.UserID claims)
    /\ Middleware.GetEmail
         (<["claims" := Middleware.VClaims toy_claims]>
            (<["email" := Middleware.VString "ada@example.com"]>
               (<["userID" := Middleware.VString "u-17"]> ∅)))
       = Done (Auth.Email claims).
Proof.
  apply (AuthMiddleware_passes_only_valid_bearer "secret" toy_parse
           "Bearer good" "u-1" ∅); reflexivity.
Defined.

(* ===================================================================== *)
(** ** Further properties: the avatar model                               *)
(* ===================================================================== *)

(** X24.  The metrics of an avatar profile are read back as they were
    set, setting what was read changes nothing, and setting metrics
    leaves every other field of the profile alone. *)
Theorem metrics_round_trip (a : Models.AvatarProfile) (m : Models.AvatarMetrics) :
  Models.GetMetrics (Models.SetMetrics a m) = m
  /\ Models.SetMetrics a (Models.GetMetrics a) = a
  /\ Models.SetMetrics (Models.SetMetrics a m) (Models.GetMetrics a) = a
  /\ (Models.ID (Models.SetMetrics a m), Models.UserID (Models.SetMetrics a m),
      Models.Name (Models.SetMetrics a m), Models.Tag (Models.SetMetrics a m),
      Models.ImageURL (Models.SetMetrics a m), Models.IsActive (Models.SetMetrics a m),
      Models.CreatedAt (Models.SetMetrics a m), Models.UpdatedAt (Models.SetMetrics a m))
     = (Models.ID a, Models.UserID a, Models.Name a, Models.Tag a,
        Models.ImageURL a, Models.IsActive a, Models.CreatedAt a, Models.UpdatedAt a).
Proof. destruct a, m. repeat apply conj; reflexivity. Qed.


(* ===================================================================== *)
(** ** Further properties: sessions and analysis                          *)
(* ===================================================================== *)

(** X25.  Storing and then deleting under the returned id: the delete
    finds the entry, and the cache is back to what it was exactly when
    the id had not been in use (otherwise the older entry under that id
    is lost). *)
Theorem Store_then_Delete (env : Env) (imageBase64 mimeType : string) (w : World) :
  let id := nextID env w in
  let w1 := snd (Store env imageBase64 mimeType w) in
  fst (Delete id w1) = Done true
  /\ entries (snd (Delete id w1)) = delete id (entries w)
  /\ (entries (snd (Delete id w1)) = entries w <-> entries w !! id = None).
Proof.
  intros id w1.
  assert (He : entries (snd (Delete id w1)) = delete id (entries w)).
  { rewrite Delete_entries. subst w1. rewrite Store_spec. cbn. fold id.
    apply delete_insert_eq. }
  split; [|split; [exact He|]].
  - unfold Delete. subst w1. rewrite Store_spec. cbn. fold id.
    now rewrite lookup_insert_eq.
  - rewrite He. split.
    + intros H. rewrite <- H. apply lookup_delete_eq.
    + apply delete_id.
Qed.

(** X26.  The refine-cutout handler does not end the session when the
    refine service fails: it answers 500 with the error text and leaves
    the state as the service left it, without deleting the entry it
    looked up (unlike generate-cutout, which deletes what it stored). *)
Theorem RefineCutout_failure_keeps_the_session
    (env : Env) (h : AIHandler) (g : GeminiService)
    (req : RefineCutoutRequest.t) (entry : CacheEntry) (e : error) (w w' : World) :
  gemini h = Some g ->
  entries w !! RefineCutoutRequest.CacheID req = Some entry ->
  Services.RefineCutout env g (OriginalImageBase64 entry)
    (RefineCutoutRequest.CurrentCutoutBase64 req)
    (RefineCutoutRequest.UserFeedback req)
    (RefineCutoutRequest.MimeType req) w = (Done (Err e), w') ->
  RefineCutout env h (Ok req) w =
    (Done {| Status := 500; Body := {[ "error" := JString (Error e) ]} |}, w').
Proof.
  intros Hg Hentry Hsvc. unfold RefineCutout, bind at 1, Get.
  rewrite Hentry, Hg. unfold bind. now rewrite Hsvc.
Qed.

Lemma RefineCutout_failure_keeps_the_session_witness :
  let w := snd (Store env_down "aGk=" "image/jpeg" fresh_world) in
  let req := {| RefineCutoutRequest.CacheID := "00000000000000000000000000000000";
                RefineCutoutRequest.CurrentCutoutBase64 := "QUJD";
                RefineCutoutRequest.UserFeedback := "make it brighter";
                RefineCutoutRequest.MimeType := "image/jpeg" |} in
  exists w',
    RefineCutout env_down {| gemini := Some the_service |} (Ok req) w =
      (Done {| Status := 500;
               Body := {[ "error" :=
                            JString "failed to refine cutout: context deadline exceeded" ]} |},
       w')
    /\ entries w' = entries w.
Proof.
  intros w req.
  exists (snd (Services.RefineCutout env_down the_service "aGk=" "QUJD"
                 "make it brighter" "image/jpeg" w)).
  split.
  - apply (RefineCutout_failure_keeps_the_session env_down
             {| gemini := Some the_service |} the_service req
             {| OriginalImageBase64 := "aGk="; MimeType := "image/jpeg"; CreatedAt := 0 |}
             (Wrapf "failed to refine cutout" (ProviderError "context deadline exceeded"))
             w); reflexivity.
  - reflexivity.
Defined.

Lemma extractTextFromParts_first (pre rest : list Part) (text : string) :
  forallb no_text pre = true ->
  extractTextFromParts (pre ++ Text text :: rest) = text.
Proof.
  induction pre as [|part pre IH]; [reflexivity|].
  cbn [forallb]. intros H. apply andb_prop in H as [Hp Hr].
  destruct part; [discriminate| |]; cbn; now apply IH.
Qed.

(** X27.  Plain analysis reads the first text part of the first
    candidate, whatever binary parts precede it and whatever follows, and
    parses the object inside a [```json] fence as if it had been sent
    bare: the result is the parser's verdict on the object alone. *)
Theorem AnalyzeClothing_reads_the_fenced_object
    (env : Env) (s : GeminiService) (imageBase64 mimeType : string) (w : World)
    (data : list byte) (pre rest : list Part) (cs : list Candidate)
    (inner ws1 ws2 ws3 ws4 : string) :
  let object := "{" +:+ inner +:+ "}" in
  let text := ws1 +:+ "```json" +:+ ws2 +:+ object +:+ ws3 +:+ "```" +:+ ws4 in
  let parts := [ImageData (TrimPrefix mimeType "image/") data; InText AnalyzePrompt] in
  decodeBase64Image imageBase64 = Done (Ok data) ->
  forallb no_text pre = true ->
  blank ws1 = true -> blank ws2 = true -> blank ws3 = true -> blank ws4 = true ->
  GenerateContent env (List.length (provider_calls w)) (model s) parts =
    Ok (Some {| Candidates :=
                  {| CandidateContent := {| Parts := pre ++ Text text :: rest |} |}
                  :: cs |}) ->
  AnalyzeClothing env s imageBase64 mimeType w =
    (Done match json_Unmarshal env object with
          | Ok analysis => Ok analysis
          | Err err => Err (Wrapf "failed to parse analysis" err)
          end,
     called (model s) parts w).
Proof.
  intros object text parts Hdec Hpre B1 B2 B3 B4 Hcall.
  unfold AnalyzeClothing, bind, lift, callProvider. rewrite Hdec.
  fold parts. rewrite Hcall. cbn [Candidates CandidateContent Parts].
  assert (Htext : cleanJSONResponse (extractTextFromParts (pre ++ Text text :: rest))
                  = object).
  { rewrite (extractTextFromParts_first pre rest text Hpre).
    now apply cleanJSONResponse_json_fence. }
  destruct (pre ++ Text text :: rest) as [|p ps] eqn:Hparts.
  - now destruct pre.
  - rewrite Htext. now destruct (json_Unmarshal env object).
Qed.

Lemma AnalyzeClothing_reads_the_fenced_object_witness :
  fst (AnalyzeClothing env_fenced the_service "aGk=" "image/jpeg" fresh_world) =
    Done (Ok {| Category := EmptyString; Color := EmptyString;
                Material := EmptyString; Description := EmptyString;
                Tags := []; Style := []; Season := [] |}).
Proof.
  rewrite (AnalyzeClothing_reads_the_fenced_object env_fenced the_service
             "aGk=" "image/jpeg" fresh_world ["h"; "i"]%byte
             [Blob "image/png" []] [Text "later"] []
             EmptyString " " " " " " " "
             eq_refl eq_refl eq_refl eq_refl eq_refl eq_refl eq_refl).
  reflexivity.
Defined.
